(** * The composite search subsystem of the file explorer backend

    A shallow embedding of [packages/backend/src/services/search.ts] (the
    searchable adapters, the criteria classes, the search engine and the
    search service) and of [packages/backend/src/controllers/search.ts]
    (the HTTP handlers and the criteria builder), followed by the properties
    the specification states about them.  The development also covers the
    tree and the creation of folders of [FolderService]
    ([packages/backend/src/services/index.ts]), the engine described in the
    search documentation and the engine of the test suite.

    Conventions of the embedding.
    - A JavaScript string is the Rocq [string] of its code units, all
      below 256; the built-ins [toLowerCase] and [trim] of [JsString] are
      given on these, where lower-casing is a map on single code units.
      [Utf16] has the strings of arbitrary code units, with [toLowerCase]
      whatever the engine computes, and the criteria on them.
    - A route is its handler behind the schema of the route: a request
      the schema refuses is answered a validation error, the handler not
      being run.
    - The ids of rows are integers; their rendering as strings is the
      decimal numeral, as it is on the values of an integer column.
    - A method that can throw returns a [Result]; code that calls
      collaborators (the data provider, [console.error], the service) runs in
      the monad [Eff], which also records the calls in order.
    - The 'any' values that reach the controller are the type [any]. *)

From Stdlib Require Import List String Ascii Bool Arith ZArith Lia.
From Stdlib Require Import DecimalString DecimalZ.
Import ListNotations.

Local Open Scope string_scope.
Local Open Scope list_scope.

Set Implicit Arguments.
Set Warnings "-register-all".
Set Default Proof Using "Type".
Set Default Goal Selector "!".

(* ------------------------------------------------------------------ *)
(** ** JavaScript strings *)

Module JsString.

(** [String.prototype.toLowerCase] on one code unit below 256: the letters
    A-Z and the Latin-1 capitals (U+00C0-U+00DE, the sign U+00D7 apart)
    move up by 32, every other code unit is kept. *)
Definition lower_unit (c : ascii) : ascii :=
  let n := nat_of_ascii c in
  if (((65 <=? n) && (n <=? 90))
      || ((192 <=? n) && (n <=? 222) && negb (n =? 215)))%nat%bool
  then ascii_of_nat (n + 32)
  else c.

Fixpoint toLowerCase (s : string) : string :=
  match s with
  | EmptyString => EmptyString
  | String c s' => String (lower_unit c) (toLowerCase s')
  end.

(** [s.startsWith(p)], the test [includes] makes at each position. *)
Fixpoint startsWith (s p : string) {struct p} : bool :=
  match p, s with
  | EmptyString, _ => true
  | String _ _, EmptyString => false
  | String b p', String a s' => Ascii.eqb a b && startsWith s' p'
  end.

(** [s.includes(p)]: [p] occurs in [s] at some position. *)
Fixpoint includes (s p : string) : bool :=
  startsWith s p ||
  match s with
  | EmptyString => false
  | String _ s' => includes s' p
  end.

(** The code units [trim] removes: WhiteSpace and LineTerminator
    (TAB, LF, VT, FF, CR, SP, NBSP below 256). *)
Definition isWhiteSpace (c : ascii) : bool :=
  let n := nat_of_ascii c in
  (((9 <=? n) && (n <=? 13)) || (n =? 32) || (n =? 160))%nat%bool.

Fixpoint trimStart (s : string) : string :=
  match s with
  | EmptyString => EmptyString
  | String c s' => if isWhiteSpace c then trimStart s' else s
  end.

(** [trimEnd] keeps a code unit when it is not white space or when
    something is kept after it. *)
Fixpoint trimEnd (s : string) : string :=
  match s with
  | EmptyString => EmptyString
  | String c s' =>
      match trimEnd s' with
      | EmptyString => if isWhiteSpace c then EmptyString else String c EmptyString
      | t => String c t
      end
  end.

Definition trim (s : string) : string := trimEnd (trimStart s).

Fixpoint allWhiteSpace (s : string) : bool :=
  match s with
  | EmptyString => true
  | String c s' => isWhiteSpace c && allWhiteSpace s'
  end.

(** Case-insensitive equality of two strings, unit by unit. *)
Definition eqIgnoreCase (s t : string) : Prop := toLowerCase s = toLowerCase t.

(** [p] is a case-insensitive substring of [s]: some substring of [s]
    equals [p] up to the case of its letters. *)
Definition ciSubstring (p s : string) : Prop :=
  exists pre mid post, s = (pre ++ mid ++ post)%string /\ eqIgnoreCase mid p.

End JsString.

(** The same built-ins without the bound on the code units: a string is
    the list of its UTF-16 code units, and [toLowerCase] is whatever the
    engine computes, which need not work unit by unit. *)
Module Utf16.

Definition str : Type := list N.

Fixpoint startsWith (s p : str) {struct p} : bool :=
  match p, s with
  | [], _ => true
  | _ :: _, [] => false
  | b :: p', a :: s' => N.eqb a b && startsWith s' p'
  end.

(** [s.includes(p)]. *)
Fixpoint includes (s p : str) : bool :=
  startsWith s p ||
  match s with
  | [] => false
  | _ :: s' => includes s' p
  end.

(** [p] occurs in [s]. *)
Definition occursIn (p s : str) : Prop := exists pre post, s = pre ++ p ++ post.

Section BuiltIn.

(** [String.prototype.toLowerCase]. *)
Variable toLowerCase : str -> str.

(** [NameSearchCriteria.execute] and [PathSearchCriteria.execute] for a
    string query, on the name and on the path of the item. *)
Definition NameSearchCriteria_execute (query name : str) : bool :=
  includes (toLowerCase name) (toLowerCase query).

Definition PathSearchCriteria_execute (query path : str) : bool :=
  includes (toLowerCase path) (toLowerCase query).

(** [p] is a case-insensitive substring of [s]: some substring of [s] and
    [p] have the same lower case. *)
Definition ciSubstring (p s : str) : Prop :=
  exists pre mid post, s = pre ++ mid ++ post /\ toLowerCase mid = toLowerCase p.

End BuiltIn.

(** The lower case of one code unit, for the units below 256, the combining
    marks U+0300 to U+036F and U+0130, the capital I with a dot, whose
    lower case is two units: i and the combining dot U+0307. *)
Definition lowerUnit (u : N) : list N :=
  if (u =? 304)%N then [105; 775]%N
  else if (((65 <=? u) && (u <=? 90))
           || ((192 <=? u) && (u <=? 222) && negb (u =? 215)))%N%bool
  then [u + 32]%N
  else [u].

(** [String.prototype.toLowerCase] on the strings made of those units:
    there is no capital sigma among them, so that each unit is lower-cased
    by itself. *)
Definition toLowerCase (s : str) : str := flat_map lowerUnit s.

(** The code units of a string of units below 256. *)
Definition units (s : string) : str := map N_of_ascii (list_ascii_of_string s).

End Utf16.

(* ------------------------------------------------------------------ *)
(** ** Untyped values and exceptions *)

(** The values of type 'any' the controller receives: a parsed JSON body, or
    [Undefined] for a property that is absent.  A number takes part in this
    program only through its truthiness and its rendering in a template
    literal, so it is kept as that rendering ([Number.prototype.toString]);
    an object is the list of its own properties. *)
Inductive any : Type :=
| Undefined
| Null
| Bool (b : bool)
| Num (rendering : string)
| Str (s : string)
| Arr (elements : list any)
| Obj (properties : list (string * any)).

(** An operation the JavaScript engine refuses with a TypeError; the text of
    such an error is the engine's, not this program's. *)
Inductive TypeErrorSite : Type :=
| ReadPropertyOfNullish (property : string)
| NotAFunction (method : string)
| ConvertToPrimitive.

(** What a [throw] or a rejected promise carries. *)
Inductive Thrown : Type :=
| Error (message : string)
| TypeError (site : TypeErrorSite)
| NonError (value : any).

Inductive Result (A : Type) : Type :=
| Ok (value : A)
| Throw (e : Thrown).

Arguments Ok {A} value.
Arguments Throw {A} e.

Module ResultMonad.

Definition bind {A B} (r : Result A) (k : A -> Result B) : Result B :=
  match r with
  | Ok a => k a
  | Throw e => Throw e
  end.

(** [xs.map(f)] where [f] can throw: left to right, the first throw ends
    the loop and no array is produced. *)
Section MapM.
Context {A B : Type} (f : A -> Result B).
Fixpoint mapM (xs : list A) : Result (list B) :=
  match xs with
  | [] => Ok []
  | x :: xs' => bind (f x) (fun y => bind (mapM xs') (fun ys => Ok (y :: ys)))
  end.
End MapM.

(** [xs.every(f)], [xs.some(f)] and [xs.filter(f)] for a callback that
    returns a boolean or throws. *)
Section Callbacks.
Context {A : Type} (f : A -> Result bool).

Fixpoint every (xs : list A) : Result bool :=
  match xs with
  | [] => Ok true
  | x :: xs' => bind (f x) (fun b => if b then every xs' else Ok false)
  end.

Fixpoint some (xs : list A) : Result bool :=
  match xs with
  | [] => Ok false
  | x :: xs' => bind (f x) (fun b => if b then Ok true else some xs')
  end.

Fixpoint filterM (xs : list A) : Result (list A) :=
  match xs with
  | [] => Ok []
  | x :: xs' =>
      bind (f x) (fun b =>
      bind (filterM xs') (fun ys => Ok (if b then x :: ys else ys)))
  end.

(** The callback returns on [x] (it does not throw). *)
Definition returns (x : A) : Prop := exists b, f x = Ok b.

(** The callback returns [true] on [x]. *)
Definition truth (x : A) : bool :=
  match f x with Ok b => b | Throw _ => false end.
End Callbacks.

End ResultMonad.

Declare Scope result_scope.
Delimit Scope result_scope with result.
Notation "x <- r ;; k" := (ResultMonad.bind r (fun x => k))
  (at level 61, r at next level, right associativity) : result_scope.

Module Any.

(** [!v]: the falsy values. *)
Definition falsy (v : any) : bool :=
  match v with
  | Undefined | Null => true
  | Bool b => negb b
  | Num r => String.eqb r "0" || String.eqb r "NaN"
  | Str s => String.eqb s ""
  | Arr _ | Obj _ => false
  end.

Definition isArray (v : any) : bool :=
  match v with Arr _ => true | _ => false end.

Fixpoint lookup (k : string) (ps : list (string * any)) : any :=
  match ps with
  | [] => Undefined
  | (k', v) :: ps' => if String.eqb k' k then v else lookup k ps'
  end.

(** [v.k] for one of the property names this program reads ([type],
    [value], [children], [criteria]): none of them is defined on a
    prototype, so only an object can have it, and reading it from
    [null] or [undefined] throws. *)
Definition get (v : any) (k : string) : Result any :=
  match v with
  | Undefined | Null => Throw (TypeError (ReadPropertyOfNullish k))
  | Obj ps => Ok (lookup k ps)
  | _ => Ok Undefined
  end.

(** The object has an own property of that name. *)
Definition hasOwn (k : string) (ps : list (string * any)) : bool :=
  existsb (fun p => String.eqb (fst p) k) ps.

(** [`${v}`]: ToString.  An array joins the renderings of its elements
    with commas, [null] and [undefined] elements rendered empty.  An object
    is rendered by the [toString] it inherits, unless it has an own property
    [toString]: a parsed value holds no function, the conversion finds
    nothing to call that returns a primitive, and it throws a TypeError. *)
Fixpoint toString (v : any) : Result string :=
  match v with
  | Undefined => Ok "undefined"
  | Null => Ok "null"
  | Bool true => Ok "true"
  | Bool false => Ok "false"
  | Num r => Ok r
  | Str s => Ok s
  | Arr l =>
      (fix join (l : list any) : Result string :=
         match l with
         | [] => Ok ""
         | x :: l' =>
             ResultMonad.bind
               (match x with Undefined | Null => Ok "" | _ => toString x end)
               (fun sx =>
                  match l' with
                  | [] => Ok sx
                  | _ :: _ =>
                      ResultMonad.bind (join l')
                        (fun rest => Ok (sx ++ "," ++ rest)%string)
                  end)
         end) l
  | Obj ps =>
      if hasOwn "toString" ps
      then Throw (TypeError ConvertToPrimitive)
      else Ok "[object Object]"
  end.

End Any.

(* ------------------------------------------------------------------ *)
(** ** The schema rows and the searchable adapters *)

(** [n.toString()] for the value of an integer column: for these numbers,
    and for every integer below 2^53 in absolute value, the rendering is
    the decimal numeral of the integer (a larger number is rendered from
    its shortest digits, with an exponent from 1e21 on, which this
    function does not follow). *)
Definition numberToString (n : Z) : string := NilZero.string_of_int (Z.to_int n).

(** The values of a column declared [serial] or [integer]. *)
Definition inIntegerColumn (n : Z) : Prop := (- 2 ^ 31 <= n < 2 ^ 31)%Z.

(** A [Date]: only carried around by the search subsystem. *)
Definition Date : Type := Z.

Module Folder.
Record t : Type := mk {
  id : Z;
  name : string;
  parentId : option Z;
  path : string;
  createdAt : Date;
  updatedAt : Date
}.
End Folder.

Module File.
Record t : Type := mk {
  id : Z;
  name : string;
  folderId : Z;
  size : option Z;
  extension : option string;
  path : string;
  createdAt : Date;
  updatedAt : Date
}.
End File.

Inductive ItemType : Type := folder | file.

Definition ItemType_eqb (a b : ItemType) : bool :=
  match a, b with
  | folder, folder | file, file => true
  | _, _ => false
  end.

Definition ItemType_name (t : ItemType) : string :=
  match t with folder => "folder" | file => "file" end.

Module SearchResultItem.
Record t : Type := mk {
  id : string;
  name : string;
  type : ItemType;
  path : string;
  parentId : option string;
  size : option Z;
  modifiedAt : Date;
  createdAt : Date
}.
End SearchResultItem.

Record ISearchResult : Type := mkSearchResult {
  items : list SearchResultItem.t;
  totalCount : nat;
  query : string
}.

(** The implementations of the interface [ISearchable]: the two adapters of
    the service and, the interface being open, any other object with the
    four getters. *)
Inductive ISearchable : Type :=
| SearchableFolder (folder : Folder.t)
| SearchableFile (file : File.t)
| OtherSearchable (id name path : string) (type : ItemType).

Definition getId (item : ISearchable) : string :=
  match item with
  | SearchableFolder f => numberToString (Folder.id f)
  | SearchableFile f => numberToString (File.id f)
  | OtherSearchable i _ _ _ => i
  end.

Definition getName (item : ISearchable) : string :=
  match item with
  | SearchableFolder f => Folder.name f
  | SearchableFile f => File.name f
  | OtherSearchable _ n _ _ => n
  end.

Definition getPath (item : ISearchable) : string :=
  match item with
  | SearchableFolder f => Folder.path f
  | SearchableFile f => File.path f
  | OtherSearchable _ _ p _ => p
  end.

Definition getType (item : ISearchable) : ItemType :=
  match item with
  | SearchableFolder _ => folder
  | SearchableFile _ => file
  | OtherSearchable _ _ _ t => t
  end.

(** [s || null] for an optional string. *)
Definition orNull (s : option string) : option string :=
  match s with
  | Some EmptyString => None
  | _ => s
  end.

(** [n || undefined] for a nullable integer. *)
Definition orUndefined (n : option Z) : option Z :=
  match n with
  | Some 0%Z => None
  | _ => n
  end.

Definition SearchableFolder_toSearchResult (f : Folder.t) : SearchResultItem.t :=
  let this := SearchableFolder f in
  {| SearchResultItem.id := getId this;
     SearchResultItem.name := getName this;
     SearchResultItem.type := getType this;
     SearchResultItem.path := getPath this;
     SearchResultItem.parentId := orNull (option_map numberToString (Folder.parentId f));
     SearchResultItem.size := None;
     SearchResultItem.modifiedAt := Folder.updatedAt f;
     SearchResultItem.createdAt := Folder.createdAt f |}.

Definition SearchableFile_toSearchResult (f : File.t) : SearchResultItem.t :=
  let this := SearchableFile f in
  {| SearchResultItem.id := getId this;
     SearchResultItem.name := getName this;
     SearchResultItem.type := getType this;
     SearchResultItem.path := getPath this;
     SearchResultItem.parentId := orNull (Some (numberToString (File.folderId f)));
     SearchResultItem.size := orUndefined (File.size f);
     SearchResultItem.modifiedAt := File.updatedAt f;
     SearchResultItem.createdAt := File.createdAt f |}.

(* ------------------------------------------------------------------ *)
(** ** The search criteria and the search engine *)

(** The implementations of [ISearchCriteria].  The constructors are typed
    ([query: string], [type: 'folder' | 'file']) but the controller passes
    them values of type 'any', so a criterion holds what it was given.
    [CustomSearchCriteria] is a criterion written outside the service, given
    by its [execute] method. *)
Inductive ISearchCriteria : Type :=
| NameSearchCriteria (query : any)
| PathSearchCriteria (query : any)
| TypeSearchCriteria (type : any)
| AndSearchCriteria (criteria : list ISearchCriteria)
| OrSearchCriteria (criteria : list ISearchCriteria)
| CustomSearchCriteria (run : ISearchable -> bool).

(** [this.query.toLowerCase()]. *)
Definition query_toLowerCase (query : any) : Result string :=
  match query with
  | Str s => Ok (JsString.toLowerCase s)
  | Undefined | Null => Throw (TypeError (ReadPropertyOfNullish "toLowerCase"))
  | _ => Throw (TypeError (NotAFunction "toLowerCase"))
  end.

(** [t === this.type] for [t] one of the two strings. *)
Definition strictEqualsType (t : ItemType) (type : any) : bool :=
  match type with
  | Str s => String.eqb (ItemType_name t) s
  | _ => false
  end.

Fixpoint execute (c : ISearchCriteria) (item : ISearchable) : Result bool :=
  match c with
  | NameSearchCriteria query =>
      (q <- query_toLowerCase query;;
       Ok (JsString.includes (JsString.toLowerCase (getName item)) q))%result
  | PathSearchCriteria query =>
      (q <- query_toLowerCase query;;
       Ok (JsString.includes (JsString.toLowerCase (getPath item)) q))%result
  | TypeSearchCriteria type => Ok (strictEqualsType (getType item) type)
  | AndSearchCriteria criteria =>
      ResultMonad.every (fun criteria => execute criteria item) criteria
  | OrSearchCriteria criteria =>
      ResultMonad.some (fun criteria => execute criteria item) criteria
  | CustomSearchCriteria run => Ok (run item)
  end.

(** What the signatures of the constructors promise: a string query, one
    of the two type names. *)
Fixpoint WellTyped (c : ISearchCriteria) : Prop :=
  match c with
  | NameSearchCriteria query | PathSearchCriteria query =>
      exists s, query = Str s
  | TypeSearchCriteria type => exists t, type = Str (ItemType_name t)
  | AndSearchCriteria criteria | OrSearchCriteria criteria =>
      (fix all (cs : list ISearchCriteria) : Prop :=
         match cs with
         | [] => True
         | c' :: cs' => WellTyped c' /\ all cs'
         end) criteria
  | CustomSearchCriteria _ => True
  end.

(** The item satisfies the criterion: [execute] returns [true]. *)
Definition matches (c : ISearchCriteria) (item : ISearchable) : bool :=
  match execute c item with
  | Ok b => b
  | Throw _ => false
  end.

(** A search engine, as the service sees it. *)
Definition ISearchEngine : Type :=
  list ISearchable -> ISearchCriteria -> Result (list ISearchable).

(** [SearchEngine.search]. *)
Definition SearchEngine_search : ISearchEngine :=
  fun items criteria => ResultMonad.filterM (fun item => execute criteria item) items.

(* ------------------------------------------------------------------ *)
(** ** Collaborators and effects *)

(** A promise, by the time it settles and what it settles to. *)
Record Promise (A : Type) : Type := {
  settledAt : nat;
  outcome : Result A
}.

Definition Promise_resolve {A} (a : A) : Promise A :=
  {| settledAt := 0; outcome := Ok a |}.

(** [await Promise.all([p, q])]: both values, or the rejection that comes
    first. *)
Definition Promise_all {A B} (p : Promise A) (q : Promise B) : Result (A * B) :=
  match outcome p, outcome q with
  | Ok a, Ok b => Ok (a, b)
  | Throw e, Ok _ => Throw e
  | Ok _, Throw e => Throw e
  | Throw e1, Throw e2 => if (settledAt q <? settledAt p)%nat then Throw e2 else Throw e1
  end.

(** [ISearchDataProvider]: the promise each of its methods returns. *)
Record ISearchDataProvider : Type := {
  getFolders : Promise (list Folder.t);
  getFiles : Promise (list File.t)
}.

(** The options of [SearchService.search]; [None] is a field left out. *)
Record SearchOptions : Type := {
  includeFiles : option bool;
  includeFolders : option bool;
  searchInPath : option bool
}.

Definition noOptions : SearchOptions :=
  {| includeFiles := None; includeFolders := None; searchInPath := None |}.

(** A destructuring default: [{ x = d } = options]. *)
Definition withDefault {A} (d : A) (x : option A) : A :=
  match x with Some a => a | None => d end.

(** The calls this code makes on its collaborators. *)
Inductive Event : Type :=
| GetFolders
| GetFiles
| ServiceSearch (query : string) (options : SearchOptions)
| ServiceAdvancedSearch (criteria : ISearchCriteria)
| BuildSearchCriteria (criteriaData : list any)
| ConsoleError (label : string) (error : Thrown).

(** A computation: the calls it made, in order, and how it ended. *)
Definition Eff (A : Type) : Type := (list Event * Result A)%type.

Module Eff.

Definition ret {A} (a : A) : Eff A := ([], Ok a).

Definition bind {A B} (m : Eff A) (k : A -> Eff B) : Eff B :=
  match m with
  | (t, Ok a) => let '(t', r) := k a in (t ++ t', r)
  | (t, Throw e) => (t, Throw e)
  end.

Definition lift {A} (r : Result A) : Eff A := ([], r).

(** A call on a collaborator that gives [a] back. *)
Definition call {A} (ev : Event) (a : A) : Eff A := ([ev], Ok a).

(** [try { m } catch (error) { handler(error) }]. *)
Definition tryCatch {A} (m : Eff A) (handler : Thrown -> Eff A) : Eff A :=
  match m with
  | (t, Ok a) => (t, Ok a)
  | (t, Throw e) => let '(t', r) := handler e in (t ++ t', r)
  end.

Definition trace {A} (m : Eff A) : list Event := fst m.
Definition result {A} (m : Eff A) : Result A := snd m.

End Eff.

Declare Scope eff_scope.
Delimit Scope eff_scope with eff.
Notation "x <- m ;; k" := (Eff.bind m (fun x => k))
  (at level 61, m at next level, right associativity) : eff_scope.
Notation "' pat <- m ;; k" := (Eff.bind m (fun x => match x with pat => k end))
  (at level 61, pat pattern, m at next level, right associativity) : eff_scope.

(* ------------------------------------------------------------------ *)
(** ** The search service *)

(** The conversion loop of both entry points: the [instanceof] dispatch. *)
Definition toSearchResult (item : ISearchable) : Result SearchResultItem.t :=
  match item with
  | SearchableFolder f => Ok (SearchableFolder_toSearchResult f)
  | SearchableFile f => Ok (SearchableFile_toSearchResult f)
  | OtherSearchable _ _ _ _ => Throw (Error "Unknown searchable item type")
  end.

(** The result records of the folders, then of the files, that the test
    [keep] retains. *)
Definition resultItems (keep : ISearchable -> bool)
  (folders : list Folder.t) (files : list File.t) : list SearchResultItem.t :=
  map SearchableFolder_toSearchResult
      (filter (fun f => keep (SearchableFolder f)) folders)
  ++ map SearchableFile_toSearchResult
       (filter (fun f => keep (SearchableFile f)) files).

Section SearchService.

(** The constructor's arguments. *)
Variable dataProvider : ISearchDataProvider.
Variable searchEngine : ISearchEngine.

Definition SearchService_search (query : string) (options : SearchOptions)
  : Eff ISearchResult :=
  (let includeFiles := withDefault true (includeFiles options) in
   let includeFolders := withDefault true (includeFolders options) in
   let searchInPath := withDefault true (searchInPath options) in
   foldersP <- (if includeFolders
                then Eff.call GetFolders (getFolders dataProvider)
                else Eff.ret (Promise_resolve []));;
   filesP <- (if includeFiles
              then Eff.call GetFiles (getFiles dataProvider)
              else Eff.ret (Promise_resolve []));;
   '(folders, files) <- Eff.lift (Promise_all foldersP filesP);;
   let searchableItems :=
     map SearchableFolder folders ++ map SearchableFile files in
   let searchCriteria :=
     [NameSearchCriteria (Str query)]
     ++ (if searchInPath then [PathSearchCriteria (Str query)] else []) in
   let criteria := OrSearchCriteria searchCriteria in
   results <- Eff.lift (searchEngine searchableItems criteria);;
   items <- Eff.lift (ResultMonad.mapM toSearchResult results);;
   Eff.ret (mkSearchResult items (List.length items) query))%eff.

Definition SearchService_advancedSearch (criteria : ISearchCriteria)
  : Eff ISearchResult :=
  (foldersP <- Eff.call GetFolders (getFolders dataProvider);;
   filesP <- Eff.call GetFiles (getFiles dataProvider);;
   '(folders, files) <- Eff.lift (Promise_all foldersP filesP);;
   let searchableItems :=
     map SearchableFolder folders ++ map SearchableFile files in
   results <- Eff.lift (searchEngine searchableItems criteria);;
   items <- Eff.lift (ResultMonad.mapM toSearchResult results);;
   Eff.ret (mkSearchResult items (List.length items) "Advanced Search"))%eff.

End SearchService.

(* ------------------------------------------------------------------ *)
(** ** The search controller *)

(** [v.map(f)] for a value of type 'any'. *)
Definition arrayMap {B} (f : any -> Result B) (v : any) : Result (list B) :=
  match v with
  | Arr l => ResultMonad.mapM f l
  | Undefined | Null => Throw (TypeError (ReadPropertyOfNullish "map"))
  | _ => Throw (TypeError (NotAFunction "map"))
  end.


(** What the [default] case throws: the error
    [new Error(`Unknown criteria type: ${type}`)], or what the rendering of
    [type] in the template throws. *)
Definition unknownTypeError (type : any) : Thrown :=
  match Any.toString type with
  | Ok rendered => Error ("Unknown criteria type: " ++ rendered)
  | Throw e => e
  end.

Definition unknownCriteriaType (type : any) : Result ISearchCriteria :=
  Throw (unknownTypeError type).

(** The [switch] of the inner function [buildCriteria]: [value] is the
    reading of [data.value] and [built] the evaluation of
    [data.children.map(child => buildCriteria(child))], each used by the
    cases that contain it. *)
Definition buildCriteria_switch (type : any) (value : Result any)
  (built : Result (list ISearchCriteria)) : Result ISearchCriteria :=
  let default := unknownCriteriaType type in
  match type with
  | Str s =>
      if String.eqb s "name" then
        (value <- value;; Ok (NameSearchCriteria value))%result
      else if String.eqb s "path" then
        (value <- value;; Ok (PathSearchCriteria value))%result
      else if String.eqb s "type" then
        (value <- value;; Ok (TypeSearchCriteria value))%result
      else if String.eqb s "and" then
        (built <- built;; Ok (AndSearchCriteria built))%result
      else if String.eqb s "or" then
        (built <- built;; Ok (OrSearchCriteria built))%result
      else default
  | _ => default
  end.

(** The body of the inner function [buildCriteria], its recursive calls
    made through [self]. *)
Definition buildCriteria_body (self : any -> Result ISearchCriteria) (data : any)
  : Result ISearchCriteria :=
  (type <- Any.get data "type";;
   buildCriteria_switch type
     (Any.get data "value")
     (children <- Any.get data "children";; arrayMap self children))%result.

(** [buildCriteria]: the recursion of [buildCriteria_body], written by
    structural recursion on [data] (the inner loop reads the property
    [children] and builds its elements); [buildCriteria_unfold] below states
    that it is that recursion. *)
Fixpoint buildCriteria (data : any) : Result ISearchCriteria :=
  match data with
  | Undefined | Null => Throw (TypeError (ReadPropertyOfNullish "type"))
  | Obj ps =>
      buildCriteria_switch (Any.lookup "type" ps) (Ok (Any.lookup "value" ps))
        ((fix childrenOf (ps : list (string * any)) : Result (list ISearchCriteria) :=
            match ps with
            | [] => arrayMap buildCriteria Undefined
            | (k, v) :: ps' =>
                if String.eqb k "children"
                then arrayMap buildCriteria v
                else childrenOf ps'
            end) ps)
  | _ =>
      buildCriteria_switch Undefined (Ok Undefined) (arrayMap buildCriteria Undefined)
  end.


(** [SearchController.buildSearchCriteria]. *)
Definition buildSearchCriteria (criteriaData : list any) : Result ISearchCriteria :=
  if (List.length criteriaData =? 1)%nat
  then buildCriteria (nth 0 criteriaData Undefined)
  else (built <- ResultMonad.mapM buildCriteria criteriaData;;
        Ok (AndSearchCriteria built))%result.

(** The [error] field of a failure response: a text of this program, or the
    message of an error raised by the engine. *)
Inductive ErrorText : Type :=
| Text (s : string)
| EngineText (site : TypeErrorSite).

(** The response bodies: [{success: true, data}] and
    [{success: false, error}]. *)
Inductive Response : Type :=
| Success (data : ISearchResult)
| Failure (error : ErrorText).

(** [error instanceof Error ? error.message : fallback]. *)
Definition errorMessage (error : Thrown) (fallback : string) : ErrorText :=
  match error with
  | Error message => Text message
  | TypeError site => EngineText site
  | NonError _ => Text fallback
  end.

(** The query string of [GET /api/v1/search]; [None] is a parameter left
    out. *)
Record SearchQuery : Type := {
  q : option string;
  files : option string;
  folders : option string;
  path : option string
}.

(** [v !== s]. *)
Definition isNot (v : option string) (s : string) : bool :=
  match v with
  | Some s' => negb (String.eqb s' s)
  | None => true
  end.

(** [!searchQuery || searchQuery.trim().length === 0]. *)
Definition missingOrBlank (searchQuery : option string) : bool :=
  match searchQuery with
  | None => true
  | Some s => String.eqb s "" || (String.length (JsString.trim s) =? 0)%nat
  end.

Section SearchController.

(** The provider the constructor wires to the repositories; the engine is
    the default one. *)
Variable dataProvider : ISearchDataProvider.

(** [GET /]. *)
Definition getSearch (query : SearchQuery) : Eff Response :=
  Eff.tryCatch
    (let searchQuery := q query in
     let includeFiles := isNot (files query) "false" in
     let includeFolders := isNot (folders query) "false" in
     let searchInPath := isNot (path query) "false" in
     if missingOrBlank searchQuery
     then Eff.ret (Failure (Text "Search query is required and cannot be empty"))
     else
       let searchQuery := withDefault "" searchQuery in
       let options :=
         Build_SearchOptions (Some includeFiles) (Some includeFolders) (Some searchInPath) in
       (results <- (_ <- Eff.call (ServiceSearch searchQuery options) tt;;
                    SearchService_search dataProvider SearchEngine_search
                      searchQuery options);;
        Eff.ret (Success results))%eff)
    (fun error =>
       (_ <- Eff.call (ConsoleError "Search error:" error) tt;;
        Eff.ret (Failure (errorMessage error "Search failed")))%eff).

(** [POST /advanced]. *)
Definition postAdvanced (body : any) : Eff Response :=
  Eff.tryCatch
    (criteria <- Eff.lift (Any.get body "criteria");;
     if Any.falsy criteria || negb (Any.isArray criteria)
        || match criteria with Arr l => (List.length l =? 0)%nat | _ => false end
     then Eff.ret (Failure (Text "Search criteria are required"))
     else
       let criteriaData := match criteria with Arr l => l | _ => [] end in
       (searchCriteria <- (_ <- Eff.call (BuildSearchCriteria criteriaData) tt;;
                           Eff.lift (buildSearchCriteria criteriaData));;
        results <- (_ <- Eff.call (ServiceAdvancedSearch searchCriteria) tt;;
                    SearchService_advancedSearch dataProvider SearchEngine_search
                      searchCriteria);;
        Eff.ret (Success results)))%eff
    (fun error =>
       (_ <- Eff.call (ConsoleError "Advanced search error:" error) tt;;
        Eff.ret (Failure (errorMessage error "Advanced search failed")))%eff).

End SearchController.

(** The shape of a node from which a criterion is built. *)
Inductive Built (data : any) : ISearchCriteria -> Prop :=
| built_name (value : any) :
    Any.get data "type" = Ok (Str "name") -> Any.get data "value" = Ok value ->
    Built data (NameSearchCriteria value)
| built_path (value : any) :
    Any.get data "type" = Ok (Str "path") -> Any.get data "value" = Ok value ->
    Built data (PathSearchCriteria value)
| built_type (value : any) :
    Any.get data "type" = Ok (Str "type") -> Any.get data "value" = Ok value ->
    Built data (TypeSearchCriteria value)
| built_and (children : list any) (built : list ISearchCriteria) :
    Any.get data "type" = Ok (Str "and") ->
    Any.get data "children" = Ok (Arr children) ->
    ResultMonad.mapM buildCriteria children = Ok built ->
    Built data (AndSearchCriteria built)
| built_or (children : list any) (built : list ISearchCriteria) :
    Any.get data "type" = Ok (Str "or") ->
    Any.get data "children" = Ok (Arr children) ->
    ResultMonad.mapM buildCriteria children = Ok built ->
    Built data (OrSearchCriteria built).

(** A searchable item that is neither adapter of the service. *)
Definition isOther (item : ISearchable) : Prop :=
  match item with
  | OtherSearchable _ _ _ _ => True
  | _ => False
  end.

(** [searchQuery && searchQuery.trim().length > 0]. *)
Definition hasText (searchQuery : option string) : bool :=
  match searchQuery with
  | None => false
  | Some s => negb (String.eqb s "") && (0 <? String.length (JsString.trim s))%nat
  end.

Section SearchByType.

Variable dataProvider : ISearchDataProvider.

(** [GET /by-type/:type]; [type] is the route parameter and [searchQuery]
    the optional parameter [q]. *)
Definition getByType (type : string) (searchQuery : option string) : Eff Response :=
  Eff.tryCatch
    (if negb (String.eqb type "file") && negb (String.eqb type "folder")
     then Eff.ret (Failure (Text "Type must be 'file' or 'folder'"))
     else
       let criteria :=
         if hasText searchQuery
         then
           let searchQuery := withDefault "" searchQuery in
           AndSearchCriteria
             [ TypeSearchCriteria (Str type);
               OrSearchCriteria
                 [ NameSearchCriteria (Str searchQuery);
                   PathSearchCriteria (Str searchQuery) ] ]
         else TypeSearchCriteria (Str type) in
       (results <- (_ <- Eff.call (ServiceAdvancedSearch criteria) tt;;
                    SearchService_advancedSearch dataProvider SearchEngine_search
                      criteria);;
        Eff.ret (Success results))%eff)
    (fun error =>
       (_ <- Eff.call (ConsoleError "Type search error:" error) tt;;
        Eff.ret (Failure (errorMessage error "Type search failed")))%eff).

End SearchByType.

(** What a route answers: the validation error of the framework (status
    422) when the request does not fit the schema declared with the route,
    the handler then not being run; otherwise what the handler returns. *)
Inductive RouteResponse : Type :=
| ValidationError
| Handled (response : Response).

(** [t.String]. *)
Definition isString (v : any) : bool :=
  match v with Str _ => true | _ => false end.

(** [t.Optional(schema)] on a property: left out, or fitting the schema. *)
Definition optional (schema : any -> bool) (v : any) : bool :=
  match v with Undefined => true | _ => schema v end.

(** The schema of the query of [GET /]: [q: t.String] and the three
    optional strings, which a [SearchQuery] always fits. *)
Definition querySchema (query : SearchQuery) : bool :=
  match q query with Some _ => true | None => false end.

(** The schema of an element of [criteria]: [type: t.String],
    [value: t.Optional(t.String)],
    [children: t.Optional(t.Array(t.Any()))]. *)
Definition criteriaItemSchema (v : any) : bool :=
  match v with
  | Obj ps =>
      isString (Any.lookup "type" ps)
      && optional isString (Any.lookup "value" ps)
      && optional Any.isArray (Any.lookup "children" ps)
  | _ => false
  end.

(** The schema of the body of [POST /advanced]:
    [t.Object({ criteria: t.Array(t.Object({...})) })]. *)
Definition bodySchema (body : any) : bool :=
  match body with
  | Obj ps =>
      match Any.lookup "criteria" ps with
      | Arr l => forallb criteriaItemSchema l
      | _ => false
      end
  | _ => false
  end.

(** A route: the schema, then the handler. *)
Definition route {Request : Type} (schema : Request -> bool)
  (handler : Request -> Eff Response) (request : Request) : Eff RouteResponse :=
  if schema request
  then (response <- handler request;; Eff.ret (Handled response))%eff
  else Eff.ret ValidationError.

(** [GET /api/v1/search/] and [POST /api/v1/search/advanced]. *)
Definition routeGetSearch (dataProvider : ISearchDataProvider)
  : SearchQuery -> Eff RouteResponse :=
  route querySchema (getSearch dataProvider).

Definition routePostAdvanced (dataProvider : ISearchDataProvider)
  : any -> Eff RouteResponse :=
  route bodySchema (postAdvanced dataProvider).

(** The descriptions from which [buildCriteria] builds a criterion: a node
    of type name, path or type, or a node of type and/or whose [children]
    is an array of such descriptions. *)
Inductive WellFormedNode : any -> Prop :=
| wf_leaf (data : any) (s : string) :
    Any.get data "type" = Ok (Str s) ->
    s = "name" \/ s = "path" \/ s = "type" ->
    WellFormedNode data
| wf_composite (data : any) (s : string) (children : list any) :
    Any.get data "type" = Ok (Str s) ->
    s = "and" \/ s = "or" ->
    Any.get data "children" = Ok (Arr children) ->
    Forall WellFormedNode children ->
    WellFormedNode data.

(** The descriptions of the declared request type: a string [value] on
    name and path nodes, 'folder' or 'file' on type nodes. *)
Inductive TypedNode : any -> Prop :=
| typed_text (data : any) (s v : string) :
    Any.get data "type" = Ok (Str s) ->
    s = "name" \/ s = "path" ->
    Any.get data "value" = Ok (Str v) ->
    TypedNode data
| typed_type (data : any) (t : ItemType) :
    Any.get data "type" = Ok (Str "type") ->
    Any.get data "value" = Ok (Str (ItemType_name t)) ->
    TypedNode data
| typed_composite (data : any) (s : string) (children : list any) :
    Any.get data "type" = Ok (Str s) ->
    s = "and" \/ s = "or" ->
    Any.get data "children" = Ok (Arr children) ->
    Forall TypedNode children ->
    TypedNode data.

(* ------------------------------------------------------------------ *)
(** ** The folder service *)

(** [FolderTreeNode]. *)
Inductive FolderTreeNode : Type :=
| mkFolderTreeNode (id : Z) (name path : string) (parentId : option Z)
    (children : list FolderTreeNode) (hasChildren : bool).

Definition node_id (n : FolderTreeNode) : Z :=
  match n with mkFolderTreeNode i _ _ _ _ _ => i end.

Definition node_children (n : FolderTreeNode) : list FolderTreeNode :=
  match n with mkFolderTreeNode _ _ _ _ ch _ => ch end.

Definition node_hasChildren (n : FolderTreeNode) : bool :=
  match n with mkFolderTreeNode _ _ _ _ _ h => h end.

(** [a === b] for two values of type [number | null]. *)
Definition sameParent (a b : option Z) : bool :=
  match a, b with
  | Some x, Some y => Z.eqb x y
  | None, None => true
  | _, _ => false
  end.

(** [folders.filter(folder => folder.parentId === parentId)]. *)
Definition subfolders (folders : list Folder.t) (parentId : option Z) : list Folder.t :=
  filter (fun folder => sameParent (Folder.parentId folder) parentId) folders.

(** A list of computations that all finished, or [None]. *)
Fixpoint allSome {A} (l : list (option A)) : option (list A) :=
  match l with
  | [] => Some []
  | None :: _ => None
  | Some a :: l' =>
      match allSome l' with
      | Some r => Some (a :: r)
      | None => None
      end
  end.

(** [FolderService.buildFolderTree].  The recursion of the source follows
    the parent links of the rows and is not bounded by the code; [depth]
    bounds the nesting of the calls, and [None] is a recursion that needs
    more. *)
Fixpoint buildFolderTree (depth : nat) (folders : list Folder.t)
  (parentId : option Z) : option (list FolderTreeNode) :=
  match depth with
  | 0 => None
  | S depth' =>
      let children := subfolders folders parentId in
      allSome
        (map (fun folder =>
                option_map
                  (fun built =>
                     mkFolderTreeNode (Folder.id folder) (Folder.name folder)
                       (Folder.path folder) (Folder.parentId folder) built
                       (existsb
                          (fun f => sameParent (Folder.parentId f)
                                      (Some (Folder.id folder)))
                          folders))
                  (buildFolderTree depth' folders (Some (Folder.id folder))))
             children)
  end.

(** The node carries the fields of the folder. *)
Definition describes (f : Folder.t) (n : FolderTreeNode) : Prop :=
  match n with
  | mkFolderTreeNode i nm pth par _ _ =>
      i = Folder.id f /\ nm = Folder.name f /\ pth = Folder.path f
      /\ par = Folder.parentId f
  end.

(** Below the node, at every depth: the children are the folders whose
    parent is the node, in the order of the rows, and [hasChildren] tells
    whether there are any. *)
Fixpoint NodeOfRows (folders : list Folder.t) (n : FolderTreeNode) : Prop :=
  match n with
  | mkFolderTreeNode i _ _ _ ch has =>
      Forall2 describes (subfolders folders (Some i)) ch
      /\ (has = true <-> ch <> [])
      /\ (fix all (l : list FolderTreeNode) : Prop :=
            match l with
            | [] => True
            | c :: l' => NodeOfRows folders c /\ all l'
            end) ch
  end.

(** The ids of the nodes of a forest, at every depth. *)
Fixpoint node_ids (n : FolderTreeNode) : list Z :=
  match n with
  | mkFolderTreeNode i _ _ _ ch _ =>
      i :: (fix ids (l : list FolderTreeNode) : list Z :=
              match l with
              | [] => []
              | c :: l' => node_ids c ++ ids l'
              end) ch
  end.

Definition tree_ids (tree : list FolderTreeNode) : list Z := flat_map node_ids tree.

(** A chain of ancestors, nearest first: each id is the id of a row whose
    parent is the next id of the chain, the last one a root. *)
Fixpoint ancestry (folders : list Folder.t) (chain : list Z) : Prop :=
  match chain with
  | [] => True
  | a :: rest =>
      (exists f, In f folders /\ Folder.id f = a /\ Folder.parentId f = hd_error rest)
      /\ ancestry folders rest
  end.

(** The rows below [parentId]: its sub-folders, and theirs. *)
Inductive Below (folders : list Folder.t) (parentId : option Z) : Folder.t -> Prop :=
| below_child (f : Folder.t) :
    In f folders -> Folder.parentId f = parentId -> Below folders parentId f
| below_step (g f : Folder.t) :
    Below folders parentId g ->
    In f folders -> Folder.parentId f = Some (Folder.id g) ->
    Below folders parentId f.

(** [NewFolder], by the two fields the service reads; [None] is a
    [parentId] that is [null] or left out. *)
Record NewFolder : Type := {
  newName : string;
  newParentId : option Z
}.

Module CreateFolderInput.
Record t : Type := mk {
  name : string;
  parentId : option Z;
  path : string
}.
End CreateFolderInput.

(** The two methods of [IFolderRepository] that [createFolder] calls, by
    the promise each returns. *)
Record IFolderRepository : Type := {
  findById : Z -> Promise (option Folder.t);
  create : CreateFolderInput.t -> Promise Folder.t
}.

Inductive RepositoryCall : Type :=
| FindById (id : Z)
| Create (input : CreateFolderInput.t).

(** [FolderService.createFolder]: the calls on the repository, and what the
    method resolves or rejects to. *)
Definition createFolder (repository : IFolderRepository) (folder : NewFolder)
  : list RepositoryCall * Result Folder.t :=
  let finish (calls : list RepositoryCall) (path : string) :=
    let createInput :=
      CreateFolderInput.mk (newName folder) (newParentId folder) path in
    (calls ++ [Create createInput], outcome (create repository createInput)) in
  match newParentId folder with
  | Some parentId =>
      if Z.eqb parentId 0 then finish [] (newName folder)
      else
        match outcome (findById repository parentId) with
        | Throw e => ([FindById parentId], Throw e)
        | Ok (Some parent) =>
            finish [FindById parentId]
              (Folder.path parent ++ "/" ++ newName folder)%string
        | Ok None => finish [FindById parentId] (newName folder)
        end
  | None => finish [] (newName folder)
  end.

(* ------------------------------------------------------------------ *)
(** ** The engine of the search documentation and of the test suite *)

(** The classes of the search documentation: a criterion is its method
    [matches], typed [boolean]; the engine takes a list of criteria. *)
Module Documented.
Section Documented.

Variable SearchableItem : Type.

Definition ISearchCriteria : Type := SearchableItem -> bool.

Inductive Operator : Type := AND | OR.

(** [CompositeCriteria.matches]. *)
Definition CompositeCriteria_matches (criteria : list ISearchCriteria)
  (operator : Operator) (item : SearchableItem) : bool :=
  match operator with
  | AND => forallb (fun criterion => criterion item) criteria
  | OR => existsb (fun criterion => criterion item) criteria
  end.

(** [SearchEngine.search]. *)
Definition SearchEngine_search (items : list SearchableItem)
  (criteria : list ISearchCriteria) : list SearchableItem :=
  if (List.length criteria =? 0)%nat then items
  else filter (fun item => CompositeCriteria_matches criteria AND item) items.

End Documented.
End Documented.

(** [LimitedSearchEngine] of the test suite: the first result of the
    engine it extends. *)
Definition LimitedSearchEngine_search : ISearchEngine :=
  fun items criteria =>
    (results <- SearchEngine_search items criteria;;
     Ok (firstn 1 results))%result.

(* ------------------------------------------------------------------ *)
(** ** The fixtures of the service's test suite *)

Module Fixtures.

Definition now : Date := 0%Z.

Definition mockFolders : list Folder.t :=
  [ Folder.mk 1 "Documents" None "/Documents" now now;
    Folder.mk 2 "Images" (Some 1%Z) "/Documents/Images" now now;
    Folder.mk 3 "Videos" None "/Videos" now now ].

Definition mockFiles : list File.t :=
  [ File.mk 1 "document.pdf" 1 (Some 1024%Z) (Some "pdf")
      "/Documents/document.pdf" now now;
    File.mk 2 "photo.jpg" 2 (Some 2048%Z) (Some "jpg")
      "/Documents/Images/photo.jpg" now now;
    File.mk 3 "video.mp4" 3 (Some 4096%Z) (Some "mp4")
      "/Videos/video.mp4" now now ].

(** [MockSearchDataProvider]. *)
Definition mockDataProvider : ISearchDataProvider :=
  {| getFolders := Promise_resolve mockFolders;
     getFiles := Promise_resolve mockFiles |}.

(** The criteria of the test of the advanced search. *)
Definition complexCriteria : ISearchCriteria :=
  OrSearchCriteria
    [ AndSearchCriteria
        [TypeSearchCriteria (Str "folder"); NameSearchCriteria (Str "Images")];
      AndSearchCriteria
        [TypeSearchCriteria (Str "file"); PathSearchCriteria (Str "Videos")] ].


Definition documents : ISearchable := SearchableFolder (Folder.mk 1 "Documents" None "/Documents" now now).

End Fixtures.

(* ================================================================== *)
(** * Properties *)

(** ** Strings *)

Module JsStringFacts.
Import JsString.

Lemma startsWith_spec (s p : string) :
  startsWith s p = true <-> exists post, s = (p ++ post)%string.
Proof.
  revert s; induction p as [|b p IH]; intros s; simpl.
  - split; [intros _; now exists s | intros _; reflexivity].
  - destruct s as [|a s].
    + split; [discriminate | intros [post H]; discriminate].
    + rewrite andb_true_iff, Ascii.eqb_eq, IH. split.
      * intros [-> [post ->]]. now exists post.
      * intros [post H]. injection H as -> ->. split; [reflexivity | now exists post].
Qed.

Lemma includes_spec (s p : string) :
  includes s p = true <-> exists pre post, s = (pre ++ p ++ post)%string.
Proof.
  induction s as [|a s IH]; simpl; rewrite orb_true_iff, startsWith_spec.
  - split.
    + intros [[post H] | H]; [| discriminate]. now exists EmptyString, post.
    + intros [pre [post H]]. left. destruct pre; simpl in H.
      * now exists post.
      * discriminate.
  - rewrite IH. split.
    + intros [[post H] | [pre [post H]]].
      * now exists EmptyString, post.
      * exists (String a pre), post. simpl. now rewrite H.
    + intros [[|c pre] [post H]]; simpl in H.
      * left. now exists post.
      * right. injection H as _ H. now exists pre, post.
Qed.

Lemma includes_empty (s : string) : includes s "" = true.
Proof. destruct s; reflexivity. Qed.

Lemma toLowerCase_app (s t : string) :
  toLowerCase (s ++ t) = (toLowerCase s ++ toLowerCase t)%string.
Proof. induction s as [|a s IH]; simpl; [reflexivity | now rewrite IH]. Qed.

(** Lower-casing works unit by unit, so a split of the lower-cased string
    is the image of a split of the string. *)
Lemma toLowerCase_split (s a b : string) :
  toLowerCase s = (a ++ b)%string ->
  exists s1 s2, s = (s1 ++ s2)%string /\ toLowerCase s1 = a /\ toLowerCase s2 = b.
Proof.
  revert s; induction a as [|c a IH]; intros s H; simpl in H.
  - now exists EmptyString, s.
  - destruct s as [|d s]; simpl in H; [discriminate |].
    injection H as Hc H. destruct (IH _ H) as [s1 [s2 [-> [H1 H2]]]].
    exists (String d s1), s2. simpl. now rewrite Hc, H1.
Qed.

Lemma includes_toLowerCase (s p : string) :
  includes (toLowerCase s) (toLowerCase p) = true <-> ciSubstring p s.
Proof.
  rewrite includes_spec. unfold ciSubstring, eqIgnoreCase. split.
  - intros [pre [post H]].
    apply toLowerCase_split in H as [s1 [s' [-> [_ H]]]].
    apply toLowerCase_split in H as [s2 [s3 [-> [H _]]]].
    now exists s1, s2, s3.
  - intros [pre [mid [post [-> H]]]].
    exists (toLowerCase pre), (toLowerCase post).
    now rewrite !toLowerCase_app, H.
Qed.

Lemma allWhiteSpace_trimStart (s : string) :
  allWhiteSpace (trimStart s) = allWhiteSpace s.
Proof.
  induction s as [|c s IH]; simpl; [reflexivity |].
  destruct (isWhiteSpace c) eqn:E; simpl; [exact IH | now rewrite E].
Qed.

Lemma trimEnd_empty (s : string) :
  trimEnd s = EmptyString <-> allWhiteSpace s = true.
Proof.
  induction s as [|c s IH]; simpl; [tauto |].
  rewrite andb_true_iff, <- IH.
  destruct (trimEnd s), (isWhiteSpace c); split; try tauto;
    try discriminate; intros [H1 H2]; discriminate.
Qed.

Lemma trim_empty (s : string) :
  trim s = EmptyString <-> allWhiteSpace s = true.
Proof. unfold trim. now rewrite trimEnd_empty, allWhiteSpace_trimStart. Qed.

Lemma length_zero (s : string) : (String.length s =? 0)%nat = String.eqb s "".
Proof. destruct s; reflexivity. Qed.

(** The strings of the test suite. *)
Example toLowerCase_Documents : toLowerCase "Documents" = "documents".
Proof. reflexivity. Qed.

Example includes_document :
  includes (toLowerCase "/Documents/Images") (toLowerCase "document") = true
  /\ includes (toLowerCase "Videos") (toLowerCase "document") = false.
Proof. split; reflexivity. Qed.

Example trim_spaces : trim "  a b  " = "a b" /\ trim "   " = "".
Proof. split; reflexivity. Qed.

End JsStringFacts.

(** ** Callbacks that return *)

Module ResultFacts.
Import ResultMonad.

Section Callbacks.
Context {A : Type} (f : A -> Result bool).

Lemma every_true (xs : list A) :
  every f xs = Ok true <-> Forall (fun x => f x = Ok true) xs.
Proof.
  induction xs as [|x xs IH]; simpl.
  - split; [constructor | reflexivity].
  - destruct (f x) as [[|]|e] eqn:E; simpl.
    + rewrite IH. split; [now constructor | now inversion 1].
    + split; [discriminate | inversion 1; congruence].
    + split; [discriminate | inversion 1; congruence].
Qed.

Lemma some_true_exists (xs : list A) :
  some f xs = Ok true -> Exists (fun x => f x = Ok true) xs.
Proof.
  induction xs as [|x xs IH]; simpl; [discriminate |].
  destruct (f x) as [[|]|e] eqn:E; simpl; intros H.
  - now left.
  - right. auto.
  - discriminate.
Qed.

Lemma some_true (xs : list A) :
  Forall (returns f) xs ->
  (some f xs = Ok true <-> Exists (fun x => f x = Ok true) xs).
Proof.
  intros Hr. split; [apply some_true_exists |].
  induction Hr as [|x xs [b Hb] _ IH]; intros H; simpl.
  - inversion H.
  - rewrite Hb; simpl. destruct b; [reflexivity |].
    inversion H; subst; [congruence | auto].
Qed.

Lemma every_returns (xs : list A) :
  Forall (returns f) xs -> exists b, every f xs = Ok b.
Proof.
  induction 1 as [|x xs [b Hb] _ [b' IH]]; simpl; [now exists true |].
  rewrite Hb; simpl. destruct b; [now exists b' | now exists false].
Qed.

Lemma some_returns (xs : list A) :
  Forall (returns f) xs -> exists b, some f xs = Ok b.
Proof.
  induction 1 as [|x xs [b Hb] _ [b' IH]]; simpl; [now exists false |].
  rewrite Hb; simpl. destruct b; [now exists true | now exists b'].
Qed.

Lemma filterM_returns (xs : list A) :
  Forall (returns f) xs -> filterM f xs = Ok (filter (truth f) xs).
Proof.
  induction 1 as [|x xs [b Hb] _ IH]; simpl; [reflexivity |].
  unfold truth at 1. rewrite Hb, IH. reflexivity.
Qed.

End Callbacks.

Lemma mapM_app {A B} (f : A -> Result B) (xs ys : list A) (xs' ys' : list B) :
  mapM f xs = Ok xs' -> mapM f ys = Ok ys' -> mapM f (xs ++ ys) = Ok (xs' ++ ys').
Proof.
  revert xs'; induction xs as [|x xs IH]; simpl; intros xs' Hx Hy.
  - injection Hx as <-. exact Hy.
  - destruct (f x) as [y|e]; simpl in *; [| discriminate].
    destruct (mapM f xs) as [zs|e]; simpl in *; [| discriminate].
    injection Hx as <-. now rewrite (IH zs eq_refl Hy).
Qed.

Lemma mapM_total {A B} (f : A -> Result B) (g : A -> B) (xs : list A) :
  (forall x, In x xs -> f x = Ok (g x)) -> mapM f xs = Ok (map g xs).
Proof.
  induction xs as [|x xs IH]; simpl; intros H; [reflexivity |].
  rewrite (H x (or_introl eq_refl)), IH by auto. reflexivity.
Qed.

Lemma mapM_map {A B C} (f : B -> Result C) (g : A -> B) (h : A -> C) (l : list A) :
  (forall a, f (g a) = Ok (h a)) -> mapM f (map g l) = Ok (map h l).
Proof.
  intros H. induction l as [|a l IH]; simpl; [reflexivity |].
  now rewrite H, IH.
Qed.

Lemma mapM_length {A B} (f : A -> Result B) (xs : list A) (ys : list B) :
  mapM f xs = Ok ys -> List.length ys = List.length xs.
Proof.
  revert ys; induction xs as [|x xs IH]; simpl; intros ys H.
  - now injection H as <-.
  - destruct (f x) as [y|e]; simpl in *; [| discriminate].
    destruct (mapM f xs) as [zs|e]; simpl in *; [| discriminate].
    injection H as <-. simpl. now rewrite (IH zs).
Qed.

End ResultFacts.

(** ** The criteria *)

Module CriteriaFacts.
Import ResultMonad ResultFacts.

(** Induction on a criterion, with the hypothesis for each child of a
    composite. *)
Lemma ISearchCriteria_induction (P : ISearchCriteria -> Prop) :
  (forall query, P (NameSearchCriteria query)) ->
  (forall query, P (PathSearchCriteria query)) ->
  (forall type, P (TypeSearchCriteria type)) ->
  (forall criteria, Forall P criteria -> P (AndSearchCriteria criteria)) ->
  (forall criteria, Forall P criteria -> P (OrSearchCriteria criteria)) ->
  (forall run, P (CustomSearchCriteria run)) ->
  forall c, P c.
Proof.
  intros HName HPath HType HAnd HOr HCustom.
  fix IH 1. intros [query|query|type|criteria|criteria|run].
  - apply HName.
  - apply HPath.
  - apply HType.
  - apply HAnd. induction criteria as [|c cs IHcs]; constructor; [apply IH | exact IHcs].
  - apply HOr. induction criteria as [|c cs IHcs]; constructor; [apply IH | exact IHcs].
  - apply HCustom.
Qed.

Lemma WellTyped_children (cs : list ISearchCriteria) :
  WellTyped (AndSearchCriteria cs) <-> Forall WellTyped cs.
Proof.
  simpl. induction cs as [|c cs IH].
  - split; [constructor | trivial].
  - rewrite IH. split; [intros [H1 H2]; now constructor | now inversion 1].
Qed.

Lemma WellTyped_And_Or (cs : list ISearchCriteria) :
  WellTyped (OrSearchCriteria cs) <-> WellTyped (AndSearchCriteria cs).
Proof. reflexivity. Qed.

(** A well-typed criterion is a total test: it returns on every item. *)
Lemma execute_returns (c : ISearchCriteria) (item : ISearchable) :
  WellTyped c -> returns (execute c) item.
Proof.
  unfold returns.
  induction c as [query|query|type|cs IH|cs IH|run] using ISearchCriteria_induction;
    intros W.
  - destruct W as [s ->]. simpl. eauto.
  - destruct W as [s ->]. simpl. eauto.
  - simpl. eauto.
  - apply WellTyped_children in W. change (execute (AndSearchCriteria cs) item)
      with (every (fun c => execute c item) cs).
    apply every_returns. rewrite Forall_forall in *. intros c Hc.
    apply IH; auto.
  - apply WellTyped_And_Or, WellTyped_children in W.
    change (execute (OrSearchCriteria cs) item)
      with (some (fun c => execute c item) cs).
    apply some_returns. rewrite Forall_forall in *. intros c Hc.
    apply IH; auto.
  - simpl. eauto.
Qed.

Lemma matches_true (c : ISearchCriteria) (item : ISearchable) :
  matches c item = true <-> execute c item = Ok true.
Proof.
  unfold matches. destruct (execute c item) as [b|e].
  - split; congruence.
  - split; discriminate.
Qed.

Lemma children_return (cs : list ISearchCriteria) (item : ISearchable) :
  Forall WellTyped cs -> Forall (returns (fun c => execute c item)) cs.
Proof.
  intros W. rewrite Forall_forall in *. intros c Hc.
  apply (execute_returns c item). auto.
Qed.

End CriteriaFacts.

(* ------------------------------------------------------------------ *)
(** ** The predicate library and the engine *)

(** C1.  For every searchable item [x] and every list [cs] of criteria
    (typed as their constructors declare), [AndSearchCriteria cs] executes to
    [true] on [x] exactly when every criterion of [cs] does, and
    [OrSearchCriteria cs] exactly when at least one does; both return (to
    [false] otherwise), the empty conjunction is [true] and the empty
    disjunction is [false]. *)
Theorem and_or_execute (x : ISearchable) (cs : list ISearchCriteria) :
  Forall WellTyped cs ->
  (execute (AndSearchCriteria cs) x = Ok true
     <-> Forall (fun c => execute c x = Ok true) cs)
  /\ (execute (OrSearchCriteria cs) x = Ok true
        <-> Exists (fun c => execute c x = Ok true) cs)
  /\ ResultMonad.returns (execute (AndSearchCriteria cs)) x
  /\ ResultMonad.returns (execute (OrSearchCriteria cs)) x
  /\ execute (AndSearchCriteria []) x = Ok true
  /\ execute (OrSearchCriteria []) x = Ok false.
Proof.
  intros W. pose proof (CriteriaFacts.children_return x W) as R.
  repeat split.
  - apply (ResultFacts.every_true (fun c => execute c x)).
  - apply (ResultFacts.every_true (fun c => execute c x)).
  - apply (ResultFacts.some_true R).
  - apply (ResultFacts.some_true R).
  - apply (ResultFacts.every_returns R).
  - apply (ResultFacts.some_returns R).
Qed.

Lemma and_or_execute_witness :
  let cs := [TypeSearchCriteria (Str "folder"); NameSearchCriteria (Str "doc")] in
  Forall WellTyped cs
  /\ execute (AndSearchCriteria cs) Fixtures.documents = Ok true
  /\ execute (OrSearchCriteria cs) Fixtures.documents = Ok true.
Proof.
  intros cs.
  assert (W : Forall WellTyped cs).
  { repeat constructor; simpl; [now exists folder | now exists "doc"]. }
  split; [exact W |].
  destruct (@and_or_execute Fixtures.documents cs W) as [HA [HO _]].
  split.
  - apply HA. repeat constructor.
  - apply HO. left. reflexivity.
Defined.

(** C4.  For every list of items and every criterion (typed as the
    constructors declare), the engine returns, and what it returns is the
    items on which the criterion executes to [true], in the order of the
    input: the [filter] of the list. *)
Theorem search_engine_filter (items : list ISearchable) (p : ISearchCriteria) :
  WellTyped p ->
  SearchEngine_search items p = Ok (filter (matches p) items)
  /\ (forall x, matches p x = true <-> execute p x = Ok true).
Proof.
  intros W. split.
  - unfold SearchEngine_search.
    rewrite (ResultFacts.filterM_returns (f := fun item => execute p item)).
    + reflexivity.
    + apply Forall_forall. intros x _. now apply CriteriaFacts.execute_returns.
  - apply CriteriaFacts.matches_true.
Qed.

Lemma search_engine_filter_witness :
  let items := map SearchableFolder Fixtures.mockFolders
               ++ map SearchableFile Fixtures.mockFiles in
  WellTyped Fixtures.complexCriteria
  /\ option_map (map getName)
       (match SearchEngine_search items Fixtures.complexCriteria with
        | Ok l => Some l
        | Throw _ => None
        end) = Some ["Images"; "video.mp4"].
Proof.
  intros items.
  assert (W : WellTyped Fixtures.complexCriteria).
  { simpl. repeat split; first [now exists folder | now exists file | eexists; reflexivity]. }
  split; [exact W |].
  rewrite (proj1 (@search_engine_filter items Fixtures.complexCriteria W)). reflexivity.
Defined.

Module Utf16Facts.
Import Utf16.

Lemma units_startsWith_spec (s p : str) :
  startsWith s p = true <-> exists post, s = p ++ post.
Proof.
  revert s; induction p as [|b p IH]; intros s; simpl.
  - split; [intros _; now exists s | intros _; reflexivity].
  - destruct s as [|a s].
    + split; [discriminate | intros [post H]; discriminate].
    + rewrite andb_true_iff, N.eqb_eq, IH. split.
      * intros [-> [post ->]]. now exists post.
      * intros [post H]. injection H as -> ->. split; [reflexivity | now exists post].
Qed.

Lemma units_includes_spec (s p : str) : includes s p = true <-> occursIn p s.
Proof.
  unfold occursIn.
  induction s as [|a s IH]; simpl; rewrite orb_true_iff, units_startsWith_spec.
  - split.
    + intros [[post H] | H]; [| discriminate]. now exists [], post.
    + intros [pre [post H]]. left. destruct pre; simpl in H.
      * now exists post.
      * discriminate.
  - rewrite IH. split.
    + intros [[post H] | [pre [post H]]].
      * now exists [], post.
      * exists (a :: pre), post. simpl. now rewrite H.
    + intros [[|c pre] [post H]]; simpl in H.
      * left. now exists post.
      * right. injection H as _ H. now exists pre, post.
Qed.

Lemma units_includes_empty (s : str) : includes s [] = true.
Proof. destruct s; reflexivity. Qed.

(** On the units below 256 the table is the lower-casing of [JsString]. *)
Lemma lowerUnit_ascii (c : ascii) :
  lowerUnit (N_of_ascii c) = [N_of_ascii (JsString.lower_unit c)].
Proof. destruct c as [[] [] [] [] [] [] [] []]; reflexivity. Qed.

Lemma toLowerCase_units (s : string) :
  toLowerCase (units s) = units (JsString.toLowerCase s).
Proof.
  unfold toLowerCase, units. induction s as [|c s IH]; simpl; [reflexivity |].
  now rewrite lowerUnit_ascii, IH.
Qed.

Lemma eqb_units (a b : ascii) : N.eqb (N_of_ascii a) (N_of_ascii b) = Ascii.eqb a b.
Proof.
  destruct (Ascii.eqb_spec a b) as [-> | Hne]; [apply N.eqb_refl |].
  apply N.eqb_neq. intros H. apply Hne.
  rewrite <- (ascii_N_embedding a), <- (ascii_N_embedding b). now rewrite H.
Qed.

Lemma startsWith_units (s p : string) :
  startsWith (units s) (units p) = JsString.startsWith s p.
Proof.
  unfold units. revert s; induction p as [|b p IH]; intros s; simpl; [reflexivity |].
  destruct s as [|a s]; simpl; [reflexivity |]. now rewrite eqb_units, IH.
Qed.

Lemma includes_units (s p : string) :
  includes (units s) (units p) = JsString.includes s p.
Proof.
  induction s as [|a s IH].
  - change (units "") with (@nil N). cbn [includes JsString.includes].
    now rewrite <- (startsWith_units "" p).
  - change (units (String a s)) with (N_of_ascii a :: units s).
    cbn [includes JsString.includes]. rewrite IH, <- startsWith_units.
    reflexivity.
Qed.

(** On strings of units below 256, the criteria of the service are the
    criteria on code units with the table. *)
Lemma execute_units (term text : string) :
  JsString.includes (JsString.toLowerCase text) (JsString.toLowerCase term)
  = includes (toLowerCase (units text)) (toLowerCase (units term)).
Proof. now rewrite !toLowerCase_units, includes_units. Qed.

End Utf16Facts.

(** C5, as the code has it.  [NameSearchCriteria term] is [true] on an item
    exactly when the lower case of [term] occurs in the lower case of the
    name of the item, each string lower-cased as a whole by [toLowerCase],
    whatever that built-in computes; with the empty term it is [true] on
    every item.  On the strings of code units below 256, for which the
    rest of this development states its results, the criterion returns
    that value and it is [true] exactly when [term] is a case-insensitive
    substring of the name. *)
Theorem name_criteria_execute :
  (forall (toLowerCase : Utf16.str -> Utf16.str) (term name : Utf16.str),
      Utf16.NameSearchCriteria_execute toLowerCase term name = true
      <-> Utf16.occursIn (toLowerCase term) (toLowerCase name))
  /\ (forall (toLowerCase : Utf16.str -> Utf16.str) (name : Utf16.str),
        toLowerCase [] = [] ->
        Utf16.NameSearchCriteria_execute toLowerCase [] name = true)
  /\ (forall (x : ISearchable) (term : string),
        execute (NameSearchCriteria (Str term)) x
        = Ok (Utf16.NameSearchCriteria_execute Utf16.toLowerCase
                (Utf16.units term) (Utf16.units (getName x)))
        /\ (execute (NameSearchCriteria (Str term)) x = Ok true
            <-> JsString.ciSubstring term (getName x))
        /\ execute (NameSearchCriteria (Str "")) x = Ok true).
Proof.
  split; [| split].
  - intros toLowerCase term name. apply Utf16Facts.units_includes_spec.
  - intros toLowerCase name H. unfold Utf16.NameSearchCriteria_execute.
    rewrite H. apply Utf16Facts.units_includes_empty.
  - intros x term. split; [| split].
    + simpl. f_equal. apply Utf16Facts.execute_units.
    + simpl. split; intros H.
      * apply JsStringFacts.includes_toLowerCase. congruence.
      * apply JsStringFacts.includes_toLowerCase in H. congruence.
    + simpl. now rewrite JsStringFacts.includes_empty.
Qed.

Lemma name_criteria_execute_witness :
  Utf16.NameSearchCriteria_execute Utf16.toLowerCase [] [304%N; 115%N] = true.
Proof.
  apply (proj1 (proj2 name_criteria_execute) Utf16.toLowerCase [304%N; 115%N]).
  reflexivity.
Defined.

(** C5, as the specification states it, fails on a name that holds the
    capital I with a dot, U+0130, whose lower case is i followed by the
    combining dot U+0307: the criterion with the combining dot as term is
    [true] on that name, of which the term is not a case-insensitive
    substring. *)
Lemma name_contains_not_ci_substring :
  let name := [304%N] in
  let term := [775%N] in
  Utf16.NameSearchCriteria_execute Utf16.toLowerCase term name = true
  /\ ~ Utf16.ciSubstring Utf16.toLowerCase term name.
Proof.
  intros name term. split; [reflexivity |].
  intros [pre [mid [post [H Hl]]]].
  destruct pre as [|a pre].
  - destruct mid as [|m mid]; [discriminate Hl |].
    simpl in H. injection H as <- H.
    destruct mid as [|m' mid]; [discriminate Hl | discriminate H].
  - simpl in H. injection H as _ H.
    destruct pre as [|a' pre]; [| discriminate H].
    destruct mid as [|m mid]; [discriminate Hl | discriminate H].
Qed.

(* ------------------------------------------------------------------ *)
(** ** The search service *)

Module ServiceFacts.
Import ResultMonad ResultFacts.

(** Case analysis on what the goal branches on. *)
Ltac case_scrutinee :=
  match goal with
  | |- context [match ?x with _ => _ end] =>
      lazymatch x with
      | context [match _ with _ => _ end] => fail
      | _ => destruct x; simpl
      end
  end.

Lemma bind_result {A B} (m : Eff A) (k : A -> Eff B) (b : B) :
  Eff.result (Eff.bind m k) = Ok b ->
  exists a, Eff.result m = Ok a /\ Eff.result (k a) = Ok b.
Proof.
  destruct m as [t [a|e]]; simpl; [| discriminate].
  intros H. exists a. split; [reflexivity |]. now destruct (k a).
Qed.

Lemma filter_map {A B} (g : A -> B) (keep : B -> bool) (l : list A) :
  filter keep (map g l) = map g (filter (fun a => keep (g a)) l).
Proof.
  induction l as [|a l IH]; simpl; [reflexivity |].
  destruct (keep (g a)); simpl; now rewrite IH.
Qed.

(** The conversion loop succeeds on the adapters of the service. *)
Lemma mapM_toSearchResult (keep : ISearchable -> bool)
  (folders : list Folder.t) (files : list File.t) :
  mapM toSearchResult
    (filter keep (map SearchableFolder folders ++ map SearchableFile files))
  = Ok (resultItems keep folders files).
Proof.
  rewrite filter_app, !filter_map. unfold resultItems.
  apply mapM_app; apply mapM_map; reflexivity.
Qed.

Lemma SearchEngine_search_returns (items : list ISearchable) (p : ISearchCriteria) :
  WellTyped p -> SearchEngine_search items p = Ok (filter (matches p) items).
Proof.
  intros W. unfold SearchEngine_search.
  rewrite (filterM_returns (f := fun item => execute p item)); [reflexivity |].
  apply Forall_forall. intros x _. now apply CriteriaFacts.execute_returns.
Qed.

(** The criteria of the free-text search, as a test on an item. *)
Lemma matches_free_text (query : string) (inPath : bool) (item : ISearchable) :
  matches
    (OrSearchCriteria
       ([NameSearchCriteria (Str query)]
        ++ (if inPath then [PathSearchCriteria (Str query)] else [])))
    item
  = matches (NameSearchCriteria (Str query)) item
    || (inPath && matches (PathSearchCriteria (Str query)) item).
Proof.
  unfold matches. destruct inPath; simpl.
  - destruct (JsString.includes _ _); simpl; [reflexivity |].
    now destruct (JsString.includes _ _).
  - destruct (JsString.includes _ _); reflexivity.
Qed.

Lemma WellTyped_free_text (query : string) (inPath : bool) :
  WellTyped
    (OrSearchCriteria
       ([NameSearchCriteria (Str query)]
        ++ (if inPath then [PathSearchCriteria (Str query)] else []))).
Proof. destruct inPath; simpl; repeat split; now exists query. Qed.

(** The calls of the advanced search do not depend on what they answer. *)
Lemma advancedSearch_trace (dp : ISearchDataProvider) (engine : ISearchEngine)
  (criteria : ISearchCriteria) :
  Eff.trace (SearchService_advancedSearch dp engine criteria) = [GetFolders; GetFiles].
Proof.
  unfold SearchService_advancedSearch, Eff.trace, Eff.bind, Eff.call, Eff.lift, Eff.ret.
  simpl. repeat case_scrutinee; reflexivity.
Qed.

(** The calls of the free-text search depend on the two flags alone. *)
Lemma search_trace (dp : ISearchDataProvider) (engine : ISearchEngine)
  (query : string) (options : SearchOptions) :
  Eff.trace (SearchService_search dp engine query options)
  = (if withDefault true (includeFolders options) then [GetFolders] else [])
    ++ (if withDefault true (includeFiles options) then [GetFiles] else []).
Proof.
  unfold SearchService_search, Eff.trace, Eff.bind, Eff.call, Eff.lift, Eff.ret.
  destruct (withDefault true (includeFolders options)),
           (withDefault true (includeFiles options));
    simpl; repeat case_scrutinee; reflexivity.
Qed.

End ServiceFacts.

(** C6.  The free-text search calls [getFolders] only when [includeFolders]
    holds and [getFiles] only when [includeFiles] holds (both [true] when
    left out); when the fetches it makes resolve, it returns the records of
    the fetched folders, then files, that [NameSearchCriteria query] matches
    or, when [searchInPath] holds, [PathSearchCriteria query] matches, and
    its [query] field is the query it was given. *)
Theorem search_free_text (dp : ISearchDataProvider) (query : string)
  (options : SearchOptions) (fs : list Folder.t) (gs : list File.t) :
  let incFolders := withDefault true (includeFolders options) in
  let incFiles := withDefault true (includeFiles options) in
  let inPath := withDefault true (searchInPath options) in
  (incFolders = true -> outcome (getFolders dp) = Ok fs) ->
  (incFiles = true -> outcome (getFiles dp) = Ok gs) ->
  let keep := fun item =>
    matches (NameSearchCriteria (Str query)) item
    || (inPath && matches (PathSearchCriteria (Str query)) item) in
  let found :=
    resultItems keep (if incFolders then fs else []) (if incFiles then gs else []) in
  SearchService_search dp SearchEngine_search query options
  = ((if incFolders then [GetFolders] else []) ++ (if incFiles then [GetFiles] else []),
     Ok (mkSearchResult found (List.length found) query)).
Proof.
  intros incFolders incFiles inPath HF HG keep found.
  assert (E : forall folders files,
             SearchEngine_search
               (map SearchableFolder folders ++ map SearchableFile files)
               (OrSearchCriteria
                  ([NameSearchCriteria (Str query)]
                   ++ (if inPath then [PathSearchCriteria (Str query)] else [])))
             = Ok (filter keep (map SearchableFolder folders ++ map SearchableFile files))).
  { intros folders files.
    rewrite ServiceFacts.SearchEngine_search_returns
      by apply ServiceFacts.WellTyped_free_text.
    f_equal. apply filter_ext. intros a. apply ServiceFacts.matches_free_text. }
  unfold SearchService_search, Promise_all.
  fold incFolders incFiles inPath. subst found.
  destruct incFolders, incFiles;
    cbn [Eff.bind Eff.call Eff.ret Eff.lift Promise_resolve outcome app];
    rewrite ?(HF eq_refl), ?(HG eq_refl);
    cbn [Eff.bind Eff.call Eff.ret Eff.lift Promise_resolve outcome app];
    rewrite E;
    cbn [Eff.bind Eff.call Eff.ret Eff.lift app];
    rewrite ServiceFacts.mapM_toSearchResult;
    reflexivity.
Qed.

Lemma search_free_text_witness :
  let options := {| includeFiles := Some true; includeFolders := Some false;
                    searchInPath := Some true |} in
  exists r,
    SearchService_search Fixtures.mockDataProvider SearchEngine_search "photo" options
    = ([GetFiles], Ok r)
    /\ map SearchResultItem.name (items r) = ["photo.jpg"]
    /\ query r = "photo".
Proof.
  intros options. eexists. split.
  - apply (@search_free_text Fixtures.mockDataProvider "photo" options
             Fixtures.mockFolders Fixtures.mockFiles); reflexivity.
  - split; reflexivity.
Defined.

(** C7.  The advanced search calls [getFolders] and [getFiles], whatever the
    criterion; when both resolve it returns the records of the folders, then
    files, that the criterion it was given matches, and its [query] field is
    the fixed text "Advanced Search". *)
Theorem search_advanced (dp : ISearchDataProvider) (criteria : ISearchCriteria)
  (fs : list Folder.t) (gs : list File.t) :
  outcome (getFolders dp) = Ok fs ->
  outcome (getFiles dp) = Ok gs ->
  WellTyped criteria ->
  let found := resultItems (matches criteria) fs gs in
  SearchService_advancedSearch dp SearchEngine_search criteria
  = ([GetFolders; GetFiles],
     Ok (mkSearchResult found (List.length found) "Advanced Search")).
Proof.
  intros HF HG W found.
  unfold SearchService_advancedSearch, Promise_all. subst found.
  cbn [Eff.bind Eff.call Eff.ret Eff.lift outcome app].
  rewrite HF, HG.
  cbn [Eff.bind Eff.call Eff.ret Eff.lift outcome app].
  rewrite ServiceFacts.SearchEngine_search_returns by assumption.
  cbn [Eff.bind Eff.call Eff.ret Eff.lift app].
  rewrite ServiceFacts.mapM_toSearchResult.
  reflexivity.
Qed.

Lemma search_advanced_witness :
  exists r,
    SearchService_advancedSearch Fixtures.mockDataProvider SearchEngine_search
      Fixtures.complexCriteria
    = ([GetFolders; GetFiles], Ok r)
    /\ map SearchResultItem.name (items r) = ["Images"; "video.mp4"]
    /\ query r = "Advanced Search".
Proof.
  eexists. split.
  - apply (@search_advanced Fixtures.mockDataProvider Fixtures.complexCriteria
             Fixtures.mockFolders Fixtures.mockFiles); try reflexivity.
    simpl. repeat split; first [now exists folder | now exists file | eexists; reflexivity].
  - split; reflexivity.
Defined.

(** C8.  Whatever the provider, the engine and the arguments, a result
    returned by the free-text search or by the advanced search has a
    [totalCount] equal to the length of its [items]. *)
Theorem totalCount_is_length (dp : ISearchDataProvider) (engine : ISearchEngine)
  (r : ISearchResult) :
  (exists query options,
      Eff.result (SearchService_search dp engine query options) = Ok r)
  \/ (exists criteria,
        Eff.result (SearchService_advancedSearch dp engine criteria) = Ok r) ->
  totalCount r = List.length (items r).
Proof.
  intros [[query [options H]] | [criteria H]].
  - unfold SearchService_search in H.
    repeat (apply ServiceFacts.bind_result in H as [? [_ H]]).
    destruct x1 as [folders files].
    repeat (apply ServiceFacts.bind_result in H as [? [_ H]]).
    simpl in H. injection H as <-. reflexivity.
  - unfold SearchService_advancedSearch in H.
    repeat (apply ServiceFacts.bind_result in H as [? [_ H]]).
    destruct x1 as [folders files].
    repeat (apply ServiceFacts.bind_result in H as [? [_ H]]).
    simpl in H. injection H as <-. reflexivity.
Qed.

Lemma totalCount_is_length_witness :
  exists r,
    Eff.result (SearchService_search Fixtures.mockDataProvider SearchEngine_search
                  "document" noOptions) = Ok r
    /\ totalCount r = List.length (items r).
Proof.
  eexists. split.
  - reflexivity.
  - apply (@totalCount_is_length Fixtures.mockDataProvider SearchEngine_search).
    left. exists "document", noOptions. reflexivity.
Defined.

(** On the fixtures of the test suite the search for "document" with the
    default options returns four records: two by their name and two more by
    their path. *)
Example search_document_on_fixtures :
  option_map (fun r => (map SearchResultItem.name (items r), totalCount r))
    (match Eff.result (SearchService_search Fixtures.mockDataProvider
                         SearchEngine_search "document" noOptions) with
     | Ok r => Some r
     | Throw _ => None
     end)
  = Some (["Documents"; "Images"; "document.pdf"; "photo.jpg"], 4).
Proof. reflexivity. Qed.

(* ------------------------------------------------------------------ *)
(** ** The criteria builder *)

Module BuilderFacts.
Import ResultMonad.

(** [buildCriteria] is the recursion of its body. *)
Lemma buildCriteria_unfold (data : any) :
  buildCriteria data = buildCriteria_body buildCriteria data.
Proof.
  destruct data as [| |b|r|s|l|ps]; try reflexivity.
  unfold buildCriteria_body. cbn [Any.get bind]. simpl buildCriteria.
  f_equal. induction ps as [|[k v] ps IH]; [reflexivity |].
  cbn [Any.lookup]. destruct (String.eqb k "children"); [reflexivity | exact IH].
Qed.






End BuilderFacts.

(* ------------------------------------------------------------------ *)
(** ** The controller *)

Module ControllerFacts.


(** The handler of [POST /advanced] on a body without a list of criteria. *)
Lemma postAdvanced_required (dp : ISearchDataProvider) (body criteria : any) :
  Any.get body "criteria" = Ok criteria ->
  Any.isArray criteria = false \/ criteria = Arr [] ->
  postAdvanced dp body = ([], Ok (Failure (Text "Search criteria are required"))).
Proof.
  intros Hget H. unfold postAdvanced. rewrite Hget.
  cbn [Eff.lift Eff.bind]. destruct H as [H | ->].
  - rewrite H, orb_true_r. reflexivity.
  - reflexivity.
Qed.

(** The builder is called on the list of the body, which is not empty. *)
Lemma postAdvanced_builds (dp : ISearchDataProvider) (body : any) (l : list any) :
  In (BuildSearchCriteria l) (Eff.trace (postAdvanced dp body)) ->
  Any.get body "criteria" = Ok (Arr l) /\ l <> [].
Proof.
  destruct (Any.get body "criteria") as [criteria|e] eqn:Hget.
  - destruct (Any.isArray criteria) eqn:Harr.
    + destruct criteria as [| |b|r|s|cs|ps]; try discriminate.
      destruct cs as [|c cs].
      { rewrite (postAdvanced_required dp body Hget (or_intror eq_refl)).
        intros []. }
      unfold postAdvanced. rewrite Hget.
      cbn [Eff.lift Eff.bind Any.falsy Any.isArray negb orb List.length Nat.eqb Eff.call].
      destruct (buildSearchCriteria (c :: cs)) as [sc|e].
      * cbn [Eff.lift Eff.bind Eff.call app].
        destruct (SearchService_advancedSearch dp SearchEngine_search sc) as [t r] eqn:Hs.
        assert (Ht : t = [GetFolders; GetFiles]).
        { change t with (Eff.trace (t, r)). rewrite <- Hs.
          apply ServiceFacts.advancedSearch_trace. }
        subst t. destruct r as [res|e]; cbn.
        -- intros [H | [H | [H | [H | []]]]]; try discriminate.
           injection H as <-. split; [reflexivity | discriminate].
        -- intros [H | [H | [H | [H | [H | []]]]]]; try discriminate.
           injection H as <-. split; [reflexivity | discriminate].
      * cbn. intros [H | [H | []]]; try discriminate.
        injection H as <-. split; [reflexivity | discriminate].
    + rewrite (postAdvanced_required dp body Hget (or_introl Harr)). intros [].
  - unfold postAdvanced. rewrite Hget. cbn. intros [H | []]. discriminate.
Qed.

Lemma missingOrBlank_spec (searchQuery : option string) :
  missingOrBlank searchQuery = true
  <-> searchQuery = None
      \/ exists s, searchQuery = Some s /\ JsString.allWhiteSpace s = true.
Proof.
  destruct searchQuery as [s|]; simpl.
  - rewrite JsStringFacts.length_zero, orb_true_iff, !String.eqb_eq,
      JsStringFacts.trim_empty.
    split.
    + intros [-> | H]; right; eexists; split; reflexivity || assumption.
    + intros [H | [s' [H1 H2]]]; [discriminate |]. injection H1 as ->. now right.
  - split; [now left | reflexivity].
Qed.

(** The service is called with the query of the request, which is not
    blank. *)
Lemma getSearch_searches (dp : ISearchDataProvider) (query : SearchQuery)
  (s : string) (options : SearchOptions) :
  In (ServiceSearch s options) (Eff.trace (getSearch dp query)) ->
  q query = Some s /\ missingOrBlank (Some s) = false.
Proof.
  unfold getSearch. destruct (missingOrBlank (q query)) eqn:Hb; [cbn; tauto |].
  destruct (q query) as [s'|]; [| discriminate].
  cbn [withDefault Eff.bind Eff.call app].
  match goal with
  | |- context [SearchService_search dp SearchEngine_search s' ?o] =>
      pose proof (ServiceFacts.search_trace dp SearchEngine_search s' o) as Ht;
      destruct (SearchService_search dp SearchEngine_search s' o) as [t r]
  end.
  unfold Eff.trace in Ht; cbn [fst] in Ht.
  assert (Hin : In (ServiceSearch s options) t -> False).
  { rewrite Ht. intros H. apply in_app_or in H as [H | H];
      match type of H with
      | In _ (if ?b then _ else _) =>
          destruct b; cbn in H; intuition discriminate
      end. }
  destruct r as [res|e]; cbn.
  - intros [H | H]; [injection H as <- _; now split |].
    rewrite app_nil_r in H. contradiction.
  - intros [H | H]; [injection H as <- _; now split |].
    apply in_app_or in H as [H | [H | []]]; [contradiction | discriminate].
Qed.

End ControllerFacts.




(** C3.  A list of one description builds the criterion of that
    description; a list of two or more builds what the node of type and
    with the list as its children builds (the same criterion, or the same
    error). *)
Theorem buildSearchCriteria_implicit_and :
  (forall c, buildSearchCriteria [c] = buildCriteria c)
  /\ (forall c1 c2 cs,
        buildSearchCriteria (c1 :: c2 :: cs)
        = buildCriteria (Obj [("type", Str "and"); ("children", Arr (c1 :: c2 :: cs))])).
Proof.
  split.
  - reflexivity.
  - intros c1 c2 cs. rewrite (BuilderFacts.buildCriteria_unfold (Obj _)).
    reflexivity.
Qed.

Module RouteFacts.

Lemma route_handled {Request : Type} (schema : Request -> bool)
  (handler : Request -> Eff Response) (request : Request)
  (calls : list Event) (response : Response) :
  schema request = true ->
  handler request = (calls, Ok response) ->
  route schema handler request = (calls, Ok (Handled response)).
Proof.
  intros Hs Hh. unfold route. rewrite Hs, Hh. simpl. now rewrite app_nil_r.
Qed.

Lemma route_refused {Request : Type} (schema : Request -> bool)
  (handler : Request -> Eff Response) (request : Request) :
  schema request = false ->
  route schema handler request = ([], Ok ValidationError).
Proof. intros Hs. unfold route. now rewrite Hs. Qed.

(** A route makes the calls of its handler, or none. *)
Lemma route_trace {Request : Type} (schema : Request -> bool)
  (handler : Request -> Eff Response) (request : Request) (ev : Event) :
  In ev (Eff.trace (route schema handler request)) ->
  schema request = true /\ In ev (Eff.trace (handler request)).
Proof.
  unfold route. destruct (schema request); [| intros []].
  destruct (handler request) as [t [r|e]]; simpl.
  - rewrite app_nil_r. auto.
  - auto.
Qed.

Lemma bodySchema_criteria (body : any) :
  bodySchema body = true -> exists l, Any.get body "criteria" = Ok (Arr l).
Proof.
  destruct body as [| |b|r|s|l|ps]; try discriminate. simpl.
  destruct (Any.lookup "criteria" ps) as [| |b|r|s|l|ps']; try discriminate.
  intros _. now exists l.
Qed.

End RouteFacts.

(** C9, as the code has it.  When the parameter [q] of [GET /] is empty or
    made of white space only, the route answers
    [{success: false, error: "Search query is required and cannot be empty"}]
    and calls nothing; when [q] is left out the request does not fit the
    schema of the route, which answers the validation error and calls
    nothing, the handler not being run; so whenever the service is called,
    the query it is passed is the [q] of the request and is neither empty
    nor blank. *)
Theorem routeGetSearch_requires_query (dp : ISearchDataProvider) (query : SearchQuery) :
  (forall s, q query = Some s ->
             JsString.allWhiteSpace s = true ->
             routeGetSearch dp query
             = ([], Ok (Handled
                          (Failure (Text "Search query is required and cannot be empty")))))
  /\ (q query = None -> routeGetSearch dp query = ([], Ok ValidationError))
  /\ (forall s options,
        In (ServiceSearch s options) (Eff.trace (routeGetSearch dp query)) ->
        q query = Some s /\ s <> "" /\ JsString.allWhiteSpace s = false).
Proof.
  split; [| split].
  - intros s Hq Hs. apply RouteFacts.route_handled.
    + unfold querySchema. now rewrite Hq.
    + assert (H : missingOrBlank (q query) = true).
      { apply ControllerFacts.missingOrBlank_spec. right. now exists s. }
      unfold getSearch. rewrite H. reflexivity.
  - intros Hq. apply RouteFacts.route_refused. unfold querySchema. now rewrite Hq.
  - intros s options H.
    apply RouteFacts.route_trace in H as [_ H].
    apply ControllerFacts.getSearch_searches in H as [Hq Hb].
    split; [exact Hq |].
    assert (Hw : JsString.allWhiteSpace s = false).
    { destruct (JsString.allWhiteSpace s) eqn:E; [| reflexivity].
      rewrite <- Hb. symmetry. apply ControllerFacts.missingOrBlank_spec.
      right. now exists s. }
    split; [| exact Hw]. intros ->. discriminate.
Qed.

Lemma routeGetSearch_requires_query_witness :
  routeGetSearch Fixtures.mockDataProvider
    {| q := Some "  "; files := None; folders := None; path := None |}
  = ([], Ok (Handled (Failure (Text "Search query is required and cannot be empty"))))
  /\ routeGetSearch Fixtures.mockDataProvider
       {| q := None; files := None; folders := None; path := None |}
     = ([], Ok ValidationError).
Proof.
  split.
  - apply (proj1 (routeGetSearch_requires_query Fixtures.mockDataProvider
                    {| q := Some "  "; files := None; folders := None; path := None |})
             "  "); reflexivity.
  - apply (proj1 (proj2 (routeGetSearch_requires_query Fixtures.mockDataProvider
                           {| q := None; files := None; folders := None;
                              path := None |}))).
    reflexivity.
Defined.

(** C9, as the specification states it, fails on a request without [q]:
    the route does not answer it with the message of the handler. *)
Lemma routeGetSearch_without_q :
  Eff.result
    (routeGetSearch Fixtures.mockDataProvider
       {| q := None; files := None; folders := None; path := None |})
  <> Ok (Handled (Failure (Text "Search query is required and cannot be empty"))).
Proof. discriminate. Qed.

(** C10, as the code has it.  When [criteria] in the body of
    [POST /advanced] is the empty array, the route answers
    [{success: false, error: "Search criteria are required"}] and calls
    nothing: neither the builder nor the service; when the body has no
    [criteria], or [criteria] is not an array, the request does not fit the
    schema of the route, which answers the validation error and calls
    nothing, the handler not being run; so whenever the builder is called,
    it is on the list of the body and that list is not empty, and when it
    has several elements the conjunction built from them has as many
    children, at least two. *)
Theorem routePostAdvanced_requires_criteria (dp : ISearchDataProvider) (body : any) :
  (Any.get body "criteria" = Ok (Arr []) ->
   routePostAdvanced dp body
   = ([], Ok (Handled (Failure (Text "Search criteria are required")))))
  /\ ((forall l, Any.get body "criteria" <> Ok (Arr l)) ->
      routePostAdvanced dp body = ([], Ok ValidationError))
  /\ (forall criteriaData,
        In (BuildSearchCriteria criteriaData) (Eff.trace (routePostAdvanced dp body)) ->
        Any.get body "criteria" = Ok (Arr criteriaData)
        /\ criteriaData <> []
        /\ (List.length criteriaData <> 1 ->
            forall built,
              ResultMonad.mapM buildCriteria criteriaData = Ok built ->
              buildSearchCriteria criteriaData = Ok (AndSearchCriteria built)
              /\ 2 <= List.length built)).
Proof.
  split; [| split].
  - intros Hget. apply RouteFacts.route_handled.
    + destruct body as [| |b|r|s|l|ps]; try discriminate.
      simpl in *. injection Hget as ->. reflexivity.
    + apply (ControllerFacts.postAdvanced_required dp body Hget). now right.
  - intros Hno. apply RouteFacts.route_refused.
    destruct (bodySchema body) eqn:E; [| reflexivity].
    destruct (RouteFacts.bodySchema_criteria body E) as [l Hl]. now destruct (Hno l).
  - intros criteriaData H.
    apply RouteFacts.route_trace in H as [_ H].
    apply ControllerFacts.postAdvanced_builds in H as [Hget Hne].
    split; [exact Hget |]. split; [exact Hne |].
    intros Hlen built Hbuilt. split.
    + unfold buildSearchCriteria.
      destruct (Nat.eqb_spec (List.length criteriaData) 1); [contradiction |].
      now rewrite Hbuilt.
    + rewrite (ResultFacts.mapM_length _ _ Hbuilt).
      destruct criteriaData as [|c1 [|c2 cs]]; simpl in *; try contradiction; lia.
Qed.

Lemma routePostAdvanced_requires_criteria_witness :
  routePostAdvanced Fixtures.mockDataProvider (Obj [("criteria", Arr [])])
  = ([], Ok (Handled (Failure (Text "Search criteria are required"))))
  /\ routePostAdvanced Fixtures.mockDataProvider (Obj [("criteria", Str "name")])
     = ([], Ok ValidationError)
  /\ routePostAdvanced Fixtures.mockDataProvider (Obj [])
     = ([], Ok ValidationError).
Proof.
  split; [| split].
  - apply (proj1 (routePostAdvanced_requires_criteria Fixtures.mockDataProvider
                    (Obj [("criteria", Arr [])]))).
    reflexivity.
  - apply (proj1 (proj2 (routePostAdvanced_requires_criteria Fixtures.mockDataProvider
                           (Obj [("criteria", Str "name")])))).
    intros l. discriminate.
  - apply (proj1 (proj2 (routePostAdvanced_requires_criteria Fixtures.mockDataProvider
                           (Obj [])))).
    intros l. discriminate.
Defined.

(** C10, as the specification states it, fails on a body without
    [criteria] and on a body whose [criteria] is not an array: the route
    does not answer them with the message of the handler. *)
Lemma routePostAdvanced_without_criteria :
  Eff.result (routePostAdvanced Fixtures.mockDataProvider (Obj []))
  <> Ok (Handled (Failure (Text "Search criteria are required")))
  /\ Eff.result
       (routePostAdvanced Fixtures.mockDataProvider (Obj [("criteria", Str "name")]))
     <> Ok (Handled (Failure (Text "Search criteria are required"))).
Proof. split; discriminate. Qed.

(* ------------------------------------------------------------------ *)
(** ** Values outside the declared types *)

(** A node of type name without a [value] is built into a criterion whose
    query is [undefined]; executing it throws, which is why the properties
    of [execute] above are stated for criteria typed as their constructors
    declare. *)
Example execute_untyped_query :
  buildCriteria (Obj [("type", Str "name")]) = Ok (NameSearchCriteria Undefined)
  /\ execute (NameSearchCriteria Undefined) Fixtures.documents
     = Throw (TypeError (ReadPropertyOfNullish "toLowerCase"))
  /\ execute (OrSearchCriteria [NameSearchCriteria Undefined;
                                TypeSearchCriteria (Str "folder")])
       Fixtures.documents
     = Throw (TypeError (ReadPropertyOfNullish "toLowerCase")).
Proof. split; [| split]; reflexivity. Qed.

(** The empty term, which [GET /] refuses, is accepted by [POST /advanced]:
    a node of type name with the empty value matches every folder and
    file. *)
Example postAdvanced_empty_term :
  option_map (fun r => map SearchResultItem.name (items r))
    (match Eff.result
             (postAdvanced Fixtures.mockDataProvider
                (Obj [("criteria", Arr [Obj [("type", Str "name"); ("value", Str "")]])]))
     with
     | Ok (Success r) => Some r
     | _ => None
     end)
  = Some ["Documents"; "Images"; "Videos"; "document.pdf"; "photo.jpg"; "video.mp4"].
Proof. reflexivity. Qed.

(* ================================================================== *)
(** * Further properties of the code *)

(** ** The criteria and the engine beyond their declared types *)

Module EngineFacts.
Import ResultMonad ResultFacts.

Section Callbacks.
Context {A : Type} (f : A -> Result bool).

Lemma filterM_ok (xs ys : list A) :
  filterM f xs = Ok ys -> ys = filter (truth f) xs /\ Forall (returns f) xs.
Proof.
  revert ys; induction xs as [|x xs IH]; simpl; intros ys H.
  - injection H as <-. split; constructor.
  - unfold truth at 1, returns at 1.
    destruct (f x) as [b|e] eqn:E; simpl in H; [| discriminate].
    destruct (filterM f xs) as [zs|e]; simpl in H; [| discriminate].
    destruct (IH zs eq_refl) as [-> HR]. injection H as <-.
    split; [reflexivity |]. constructor; [now exists b | exact HR].
Qed.

Lemma filterM_throw (xs : list A) (e : Thrown) :
  filterM f xs = Throw e ->
  exists pre x post,
    xs = pre ++ x :: post /\ Forall (returns f) pre /\ f x = Throw e.
Proof.
  induction xs as [|x xs IH]; simpl; [discriminate |].
  destruct (f x) as [b|e'] eqn:E; simpl.
  - destruct (filterM f xs) as [zs|e'']; simpl; [discriminate |].
    intros H. injection H as ->.
    destruct (IH eq_refl) as [pre [y [post [-> [HR Hy]]]]].
    exists (x :: pre), y, post. repeat split; trivial.
    constructor; [now exists b | exact HR].
  - intros H. injection H as ->. exists [], x, xs. repeat split; trivial.
Qed.

Lemma every_app (xs ys : list A) :
  every f (xs ++ ys) = bind (every f xs) (fun b => if b then every f ys else Ok false).
Proof.
  induction xs as [|x xs IH]; simpl; [reflexivity |].
  destruct (f x) as [[|]|e]; simpl; trivial.
Qed.

Lemma some_app (xs ys : list A) :
  some f (xs ++ ys) = bind (some f xs) (fun b => if b then Ok true else some f ys).
Proof.
  induction xs as [|x xs IH]; simpl; [reflexivity |].
  destruct (f x) as [[|]|e]; simpl; trivial.
Qed.

End Callbacks.

Lemma bind_bool_id (r : Result bool) :
  bind r (fun b => if b then Ok true else Ok false) = r.
Proof. now destruct r as [[|]|e]. Qed.

Lemma filter_filter {A} (f g : A -> bool) (l : list A) :
  filter g (filter f l) = filter (fun x => f x && g x) l.
Proof.
  induction l as [|a l IH]; simpl; [reflexivity |].
  destruct (f a); simpl; [destruct (g a); simpl |]; now rewrite IH.
Qed.

Lemma filter_false {A} (keep : A -> bool) (l : list A) :
  (forall a, keep a = false) -> filter keep l = [].
Proof.
  intros H. induction l as [|a l IH]; simpl; [reflexivity |].
  now rewrite H.
Qed.

Lemma matches_pair (p q : ISearchCriteria) (x : ISearchable) :
  WellTyped p -> WellTyped q ->
  matches (AndSearchCriteria [p; q]) x = matches p x && matches q x.
Proof.
  intros Wp Wq. unfold matches. simpl.
  destruct (CriteriaFacts.execute_returns p x Wp) as [b ->].
  destruct (CriteriaFacts.execute_returns q x Wq) as [c ->].
  now destruct b, c.
Qed.

End EngineFacts.

(** X1.  Whatever the criterion holds, the engine either returns the items
    on which it executes to [true], in the order of the input, and then the
    criterion returned on every item; or it throws what the criterion threw
    on the first item on which it throws. *)
Theorem search_engine_outcome (items : list ISearchable) (p : ISearchCriteria) :
  match SearchEngine_search items p with
  | Ok found =>
      found = filter (matches p) items
      /\ Forall (ResultMonad.returns (execute p)) items
  | Throw e =>
      exists before item after,
        items = before ++ item :: after
        /\ Forall (ResultMonad.returns (execute p)) before
        /\ execute p item = Throw e
  end.
Proof.
  destruct (SearchEngine_search items p) as [found|e] eqn:E.
  - apply (EngineFacts.filterM_ok (fun item => execute p item)) in E. exact E.
  - apply (EngineFacts.filterM_throw (fun item => execute p item)) in E. exact E.
Qed.

(** X2.  On every item and for all criteria, typed or not, a conjunction
    nested first in a conjunction can be flattened, and so can a disjunction
    in a disjunction; a conjunction or disjunction of one criterion executes
    as that criterion (same value, same error). *)
Theorem composite_flatten (x : ISearchable) (c : ISearchCriteria)
  (cs ds : list ISearchCriteria) :
  execute (AndSearchCriteria (AndSearchCriteria cs :: ds)) x
  = execute (AndSearchCriteria (cs ++ ds)) x
  /\ execute (OrSearchCriteria (OrSearchCriteria cs :: ds)) x
     = execute (OrSearchCriteria (cs ++ ds)) x
  /\ execute (AndSearchCriteria [c]) x = execute c x
  /\ execute (OrSearchCriteria [c]) x = execute c x.
Proof.
  split; [| split; [| split]].
  - change (execute (AndSearchCriteria (cs ++ ds)) x)
      with (ResultMonad.every (fun c => execute c x) (cs ++ ds)).
    rewrite EngineFacts.every_app. reflexivity.
  - change (execute (OrSearchCriteria (cs ++ ds)) x)
      with (ResultMonad.some (fun c => execute c x) (cs ++ ds)).
    rewrite EngineFacts.some_app. reflexivity.
  - simpl. apply EngineFacts.bind_bool_id.
  - simpl. apply EngineFacts.bind_bool_id.
Qed.

(** X3.  For criteria typed as the constructors declare, searching with the
    conjunction of two criteria is searching with the second in what the
    search with the first returns; in particular searching again with the
    same criterion changes nothing. *)
Theorem search_engine_compose (items : list ISearchable) (p q : ISearchCriteria) :
  WellTyped p -> WellTyped q ->
  SearchEngine_search items (AndSearchCriteria [p; q])
  = ResultMonad.bind (SearchEngine_search items p)
      (fun found => SearchEngine_search found q)
  /\ ResultMonad.bind (SearchEngine_search items p)
       (fun found => SearchEngine_search found p)
     = SearchEngine_search items p.
Proof.
  intros Wp Wq.
  assert (Wpq : WellTyped (AndSearchCriteria [p; q])) by (simpl; auto).
  rewrite !ServiceFacts.SearchEngine_search_returns by assumption.
  cbn [ResultMonad.bind].
  rewrite !ServiceFacts.SearchEngine_search_returns by assumption.
  rewrite !EngineFacts.filter_filter. split; f_equal; apply filter_ext; intros a.
  - now apply EngineFacts.matches_pair.
  - now destruct (matches p a).
Qed.

Lemma search_engine_compose_witness :
  let items := map SearchableFolder Fixtures.mockFolders
               ++ map SearchableFile Fixtures.mockFiles in
  let p := TypeSearchCriteria (Str "file") in
  let q := PathSearchCriteria (Str "images") in
  SearchEngine_search items (AndSearchCriteria [p; q])
  = ResultMonad.bind (SearchEngine_search items p)
      (fun found => SearchEngine_search found q)
  /\ option_map (map getName)
       (match SearchEngine_search items (AndSearchCriteria [p; q]) with
        | Ok l => Some l
        | Throw _ => None
        end) = Some ["photo.jpg"].
Proof.
  intros items p q. split.
  - apply (@search_engine_compose items p q).
    + now exists file.
    + now exists "images".
  - reflexivity.
Defined.

(** X4.  [PathSearchCriteria term] is [true] on an item exactly when the
    lower case of [term] occurs in the lower case of the path of the item,
    each string lower-cased as a whole by [toLowerCase], whatever that
    built-in computes; with the empty term it is [true] on every item.  On
    the strings of code units below 256 the criterion returns that value,
    and it is [true] exactly when [term] is a case-insensitive substring of
    the path. *)
Theorem path_criteria_execute :
  (forall (toLowerCase : Utf16.str -> Utf16.str) (term path : Utf16.str),
      Utf16.PathSearchCriteria_execute toLowerCase term path = true
      <-> Utf16.occursIn (toLowerCase term) (toLowerCase path))
  /\ (forall (toLowerCase : Utf16.str -> Utf16.str) (path : Utf16.str),
        toLowerCase [] = [] ->
        Utf16.PathSearchCriteria_execute toLowerCase [] path = true)
  /\ (forall (x : ISearchable) (term : string),
        execute (PathSearchCriteria (Str term)) x
        = Ok (Utf16.PathSearchCriteria_execute Utf16.toLowerCase
                (Utf16.units term) (Utf16.units (getPath x)))
        /\ (execute (PathSearchCriteria (Str term)) x = Ok true
            <-> JsString.ciSubstring term (getPath x))
        /\ execute (PathSearchCriteria (Str "")) x = Ok true).
Proof.
  split; [| split].
  - intros toLowerCase term path. apply Utf16Facts.units_includes_spec.
  - intros toLowerCase path H. unfold Utf16.PathSearchCriteria_execute.
    rewrite H. apply Utf16Facts.units_includes_empty.
  - intros x term. split; [| split].
    + simpl. f_equal. apply Utf16Facts.execute_units.
    + simpl. split; intros H.
      * apply JsStringFacts.includes_toLowerCase. congruence.
      * apply JsStringFacts.includes_toLowerCase in H. congruence.
    + simpl. now rewrite JsStringFacts.includes_empty.
Qed.

Lemma path_criteria_execute_witness :
  Utf16.PathSearchCriteria_execute Utf16.toLowerCase [] [47%N; 304%N] = true.
Proof.
  apply (proj1 (proj2 path_criteria_execute) Utf16.toLowerCase [47%N; 304%N]).
  reflexivity.
Defined.

(** X5.  The value of a type criterion is compared exactly: when it is not
    the string 'folder' nor the string 'file' (another case, a plural, a
    value that is not a string), the criterion matches no item and the
    engine returns the empty list. *)
Theorem type_criteria_exact (value : any) (items : list ISearchable) :
  (forall t, value <> Str (ItemType_name t)) ->
  SearchEngine_search items (TypeSearchCriteria value) = Ok [].
Proof.
  intros H. unfold SearchEngine_search.
  rewrite (ResultFacts.filterM_returns
             (f := fun item => execute (TypeSearchCriteria value) item)).
  - f_equal. apply EngineFacts.filter_false. intros x.
    unfold ResultMonad.truth. simpl.
    destruct (strictEqualsType (getType x) value) eqn:E; [| reflexivity].
    destruct value as [| |b|r|s|l|ps]; try discriminate.
    apply String.eqb_eq in E. subst s. now destruct (H (getType x)).
  - apply Forall_forall. intros x _. simpl. now eexists.
Qed.

Lemma type_criteria_exact_witness :
  SearchEngine_search
    (map SearchableFolder Fixtures.mockFolders) (TypeSearchCriteria (Str "Folder"))
  = Ok [].
Proof.
  apply type_criteria_exact. intros [|]; discriminate.
Defined.

(* ------------------------------------------------------------------ *)
(** ** The service on its edge cases *)

Module ServiceEdges.

(** What the free-text search returns when the fetches it makes resolve. *)
Lemma search_resolved (dp : ISearchDataProvider) (query : string)
  (options : SearchOptions) (fs : list Folder.t) (gs : list File.t) :
  let incFolders := withDefault true (includeFolders options) in
  let incFiles := withDefault true (includeFiles options) in
  let inPath := withDefault true (searchInPath options) in
  (incFolders = true -> outcome (getFolders dp) = Ok fs) ->
  (incFiles = true -> outcome (getFiles dp) = Ok gs) ->
  let keep := fun item =>
    matches (NameSearchCriteria (Str query)) item
    || (inPath && matches (PathSearchCriteria (Str query)) item) in
  let found :=
    resultItems keep (if incFolders then fs else []) (if incFiles then gs else []) in
  SearchService_search dp SearchEngine_search query options
  = ((if incFolders then [GetFolders] else []) ++ (if incFiles then [GetFiles] else []),
     Ok (mkSearchResult found (List.length found) query)).
Proof.
  intros incFolders incFiles inPath HF HG keep found.
  assert (E : forall folders files,
             SearchEngine_search
               (map SearchableFolder folders ++ map SearchableFile files)
               (OrSearchCriteria
                  ([NameSearchCriteria (Str query)]
                   ++ (if inPath then [PathSearchCriteria (Str query)] else [])))
             = Ok (filter keep (map SearchableFolder folders ++ map SearchableFile files))).
  { intros folders files.
    rewrite ServiceFacts.SearchEngine_search_returns
      by apply ServiceFacts.WellTyped_free_text.
    f_equal. apply filter_ext. intros a. apply ServiceFacts.matches_free_text. }
  unfold SearchService_search, Promise_all.
  fold incFolders incFiles inPath. subst found.
  destruct incFolders, incFiles;
    cbn [Eff.bind Eff.call Eff.ret Eff.lift Promise_resolve outcome app];
    rewrite ?(HF eq_refl), ?(HG eq_refl);
    cbn [Eff.bind Eff.call Eff.ret Eff.lift Promise_resolve outcome app];
    rewrite E;
    cbn [Eff.bind Eff.call Eff.ret Eff.lift app];
    rewrite ServiceFacts.mapM_toSearchResult;
    reflexivity.
Qed.

(** What the advanced search returns when both fetches resolve. *)
Lemma advanced_resolved (dp : ISearchDataProvider) (criteria : ISearchCriteria)
  (fs : list Folder.t) (gs : list File.t) :
  outcome (getFolders dp) = Ok fs ->
  outcome (getFiles dp) = Ok gs ->
  WellTyped criteria ->
  let found := resultItems (matches criteria) fs gs in
  SearchService_advancedSearch dp SearchEngine_search criteria
  = ([GetFolders; GetFiles],
     Ok (mkSearchResult found (List.length found) "Advanced Search")).
Proof.
  intros HF HG W found.
  unfold SearchService_advancedSearch, Promise_all. subst found.
  cbn [Eff.bind Eff.call Eff.ret Eff.lift outcome app].
  rewrite HF, HG.
  cbn [Eff.bind Eff.call Eff.ret Eff.lift outcome app].
  rewrite ServiceFacts.SearchEngine_search_returns by assumption.
  cbn [Eff.bind Eff.call Eff.ret Eff.lift app].
  rewrite ServiceFacts.mapM_toSearchResult.
  reflexivity.
Qed.

Lemma filter_true {A} (keep : A -> bool) (l : list A) :
  (forall a, keep a = true) -> filter keep l = l.
Proof.
  intros H. induction l as [|a l IH]; simpl; [reflexivity |].
  now rewrite H, IH.
Qed.

Lemma matches_empty_name (item : ISearchable) :
  matches (NameSearchCriteria (Str "")) item = true.
Proof. unfold matches. simpl. now rewrite JsStringFacts.includes_empty. Qed.

End ServiceEdges.

(** X6.  With [includeFolders] and [includeFiles] both [false], the
    free-text search calls neither [getFolders] nor [getFiles] and returns
    the empty result for the query, whatever the provider would have
    answered. *)
Theorem search_nothing_included (dp : ISearchDataProvider) (query : string)
  (options : SearchOptions) :
  includeFolders options = Some false ->
  includeFiles options = Some false ->
  SearchService_search dp SearchEngine_search query options
  = ([], Ok (mkSearchResult [] 0 query)).
Proof.
  intros HF HG.
  rewrite (@ServiceEdges.search_resolved dp query options [] []);
    rewrite ?HF, ?HG; simpl; trivial; discriminate.
Qed.

Lemma search_nothing_included_witness :
  SearchService_search
    {| getFolders := {| settledAt := 1; outcome := Throw (Error "down") |};
       getFiles := {| settledAt := 1; outcome := Throw (Error "down") |} |}
    SearchEngine_search "document"
    {| includeFiles := Some false; includeFolders := Some false; searchInPath := None |}
  = ([], Ok (mkSearchResult [] 0 "document")).
Proof. apply search_nothing_included; reflexivity. Defined.

(** X7.  The service does not refuse the empty query: with the default
    options and both fetches resolved, the search for the empty string
    returns the record of every folder, then of every file. *)
Theorem search_empty_query (dp : ISearchDataProvider) (fs : list Folder.t)
  (gs : list File.t) :
  outcome (getFolders dp) = Ok fs ->
  outcome (getFiles dp) = Ok gs ->
  let found :=
    map SearchableFolder_toSearchResult fs ++ map SearchableFile_toSearchResult gs in
  SearchService_search dp SearchEngine_search "" noOptions
  = ([GetFolders; GetFiles], Ok (mkSearchResult found (List.length found) "")).
Proof.
  intros HF HG found.
  rewrite (@ServiceEdges.search_resolved dp "" noOptions fs gs) by trivial.
  cbn [noOptions includeFolders includeFiles withDefault app].
  unfold resultItems.
  rewrite !ServiceEdges.filter_true; [reflexivity | |]; intros a;
    rewrite ServiceEdges.matches_empty_name; reflexivity.
Qed.

Lemma search_empty_query_witness :
  option_map (fun r => List.length (items r))
    (match Eff.result (SearchService_search Fixtures.mockDataProvider
                         SearchEngine_search "" noOptions) with
     | Ok r => Some r
     | Throw _ => None
     end) = Some 6.
Proof.
  rewrite (@search_empty_query Fixtures.mockDataProvider
             Fixtures.mockFolders Fixtures.mockFiles eq_refl eq_refl).
  reflexivity.
Defined.

(* ------------------------------------------------------------------ *)
(** ** Failures on the way to a response *)

Module FailureFacts.

Lemma not_blank (s : string) :
  JsString.allWhiteSpace s = false -> missingOrBlank (Some s) = false.
Proof.
  intros H. destruct (missingOrBlank (Some s)) eqn:E; [| reflexivity].
  apply ControllerFacts.missingOrBlank_spec in E as [E | [s' [E1 E2]]];
    [discriminate |].
  injection E1 as <-. congruence.
Qed.

(** The free-text search throws the rejection of the one fetch that fails. *)
Lemma search_rejected (dp : ISearchDataProvider) (engine : ISearchEngine)
  (query : string) (options : SearchOptions) (e : Thrown) :
  let incFolders := withDefault true (includeFolders options) in
  let incFiles := withDefault true (includeFiles options) in
  (incFolders = true /\ outcome (getFolders dp) = Throw e
   /\ (incFiles = true -> exists gs, outcome (getFiles dp) = Ok gs))
  \/ (incFiles = true /\ outcome (getFiles dp) = Throw e
      /\ (incFolders = true -> exists fs, outcome (getFolders dp) = Ok fs)) ->
  SearchService_search dp engine query options
  = ((if incFolders then [GetFolders] else []) ++ (if incFiles then [GetFiles] else []),
     Throw e).
Proof.
  intros incFolders incFiles H.
  unfold SearchService_search, Promise_all. fold incFolders incFiles.
  destruct H as [[HF [He HG]] | [HG [He HF]]].
  - rewrite HF in *.
    destruct incFiles; cbn [Eff.bind Eff.call Eff.ret Eff.lift Promise_resolve outcome app];
      rewrite He; [destruct (HG eq_refl) as [gs ->] |]; reflexivity.
  - rewrite HG in *.
    destruct incFolders; cbn [Eff.bind Eff.call Eff.ret Eff.lift Promise_resolve outcome app];
      rewrite He; [destruct (HF eq_refl) as [fs ->] |]; reflexivity.
Qed.

Lemma tryCatch_answers {A} (m : Eff A) (handler : Thrown -> Eff A) :
  (forall e, exists a, Eff.result (handler e) = Ok a) ->
  exists a, Eff.result (Eff.tryCatch m handler) = Ok a.
Proof.
  intros H. destruct m as [t [a|e]]; simpl; [now exists a |].
  destruct (H e) as [a Ha]. exists a. now destruct (handler e).
Qed.

Lemma mapM_toSearchResult_other (results : list ISearchable) :
  Exists isOther results ->
  ResultMonad.mapM toSearchResult results = Throw (Error "Unknown searchable item type").
Proof.
  induction results as [|x results IH]; intros H; [inversion H |].
  simpl. destruct x as [f|f|i n p t]; simpl; try reflexivity;
    (inversion H as [? ? Hx | ? ? Hx]; subst; [destruct Hx | now rewrite (IH Hx)]).
Qed.

End FailureFacts.

(** X8.  When [GET /] has a query that is not blank and one of the fetches
    it asks for is rejected (the other resolved or not asked for), the
    handler logs the rejection and answers [{success: false, error}], where
    [error] is the message of the rejection when it is an [Error] and
    "Search failed" otherwise. *)
Theorem getSearch_provider_failure (dp : ISearchDataProvider) (query : SearchQuery)
  (s : string) (e : Thrown) :
  q query = Some s ->
  JsString.allWhiteSpace s = false ->
  let incFolders := isNot (folders query) "false" in
  let incFiles := isNot (files query) "false" in
  (incFolders = true /\ outcome (getFolders dp) = Throw e
   /\ (incFiles = true -> exists gs, outcome (getFiles dp) = Ok gs))
  \/ (incFiles = true /\ outcome (getFiles dp) = Throw e
      /\ (incFolders = true -> exists fs, outcome (getFolders dp) = Ok fs)) ->
  Eff.result (getSearch dp query) = Ok (Failure (errorMessage e "Search failed"))
  /\ exists calls,
       Eff.trace (getSearch dp query) = calls ++ [ConsoleError "Search error:" e].
Proof.
  intros Hq Hs incFolders incFiles H.
  unfold getSearch. cbv zeta. rewrite Hq, (FailureFacts.not_blank s Hs).
  cbn [withDefault]. fold incFolders incFiles.
  rewrite (@FailureFacts.search_rejected dp SearchEngine_search s
             (Build_SearchOptions (Some incFiles) (Some incFolders)
                (Some (isNot (path query) "false"))) e) by exact H.
  cbn. split; [reflexivity |].
  eexists (ServiceSearch s _ :: _). reflexivity.
Qed.

Lemma getSearch_provider_failure_witness :
  let dp := {| getFolders := {| settledAt := 1; outcome := Throw (Error "connection lost") |};
               getFiles := Promise_resolve Fixtures.mockFiles |} in
  Eff.result (getSearch dp {| q := Some "photo"; files := None; folders := None;
                              path := None |})
  = Ok (Failure (Text "connection lost")).
Proof.
  intros dp.
  apply (@getSearch_provider_failure dp
           {| q := Some "photo"; files := None; folders := None; path := None |}
           "photo" (Error "connection lost") eq_refl eq_refl).
  left. split; [reflexivity |]. split; [reflexivity |].
  intros _. now exists Fixtures.mockFiles.
Defined.

(** X9.  No exception leaves a handler of the search controller: whatever
    the request and whatever the provider answers, [GET /],
    [POST /advanced] and [GET /by-type/:type] return a response. *)
Theorem handlers_always_answer (dp : ISearchDataProvider) :
  (forall query, exists response, Eff.result (getSearch dp query) = Ok response)
  /\ (forall body, exists response, Eff.result (postAdvanced dp body) = Ok response)
  /\ (forall type searchQuery,
        exists response, Eff.result (getByType dp type searchQuery) = Ok response).
Proof.
  split; [| split]; intros; apply FailureFacts.tryCatch_answers; intros e;
    eexists; reflexivity.
Qed.

(** X10.  When [GET /] has a query that is not blank and the fetches it
    asks for resolve, it answers [{success: true, data}] where [data] is the
    result of the free-text search for the query as it was sent, not
    trimmed; a flag is off only when its parameter is exactly the string
    "false". *)
Theorem getSearch_success (dp : ISearchDataProvider) (query : SearchQuery)
  (s : string) (fs : list Folder.t) (gs : list File.t) :
  q query = Some s ->
  JsString.allWhiteSpace s = false ->
  let incFolders := isNot (folders query) "false" in
  let incFiles := isNot (files query) "false" in
  let inPath := isNot (path query) "false" in
  (incFolders = true -> outcome (getFolders dp) = Ok fs) ->
  (incFiles = true -> outcome (getFiles dp) = Ok gs) ->
  let keep := fun item =>
    matches (NameSearchCriteria (Str s)) item
    || (inPath && matches (PathSearchCriteria (Str s)) item) in
  let found :=
    resultItems keep (if incFolders then fs else []) (if incFiles then gs else []) in
  getSearch dp query
  = (ServiceSearch s (Build_SearchOptions (Some incFiles) (Some incFolders) (Some inPath))
       :: (if incFolders then [GetFolders] else [])
       ++ (if incFiles then [GetFiles] else []),
     Ok (Success (mkSearchResult found (List.length found) s))).
Proof.
  intros Hq Hs incFolders incFiles inPath HF HG keep found.
  unfold getSearch. cbv zeta. rewrite Hq, (FailureFacts.not_blank s Hs).
  cbn [withDefault]. fold incFolders incFiles inPath.
  rewrite (@ServiceEdges.search_resolved dp s
             (Build_SearchOptions (Some incFiles) (Some incFolders) (Some inPath))
             fs gs) by assumption.
  cbn. rewrite app_nil_r. reflexivity.
Qed.

Lemma getSearch_success_witness :
  option_map (fun r => map SearchResultItem.name (items r))
    (match Eff.result
             (getSearch Fixtures.mockDataProvider
                {| q := Some "IMAGES"; files := Some "FALSE"; folders := None;
                   path := Some "false" |}) with
     | Ok (Success r) => Some r
     | _ => None
     end) = Some ["Images"].
Proof.
  rewrite (@getSearch_success Fixtures.mockDataProvider
             {| q := Some "IMAGES"; files := Some "FALSE"; folders := None;
                path := Some "false" |}
             "IMAGES" Fixtures.mockFolders Fixtures.mockFiles
             eq_refl eq_refl (fun _ => eq_refl) (fun _ => eq_refl)).
  reflexivity.
Defined.

(** X11.  The service converts only its own two adapters: when the engine
    it was constructed with returns an item that is neither, the advanced
    search throws the error "Unknown searchable item type" and returns no
    result, not even for the items it could convert. *)
Theorem advancedSearch_unknown_item (dp : ISearchDataProvider) (engine : ISearchEngine)
  (criteria : ISearchCriteria) (fs : list Folder.t) (gs : list File.t)
  (results : list ISearchable) :
  outcome (getFolders dp) = Ok fs ->
  outcome (getFiles dp) = Ok gs ->
  engine (map SearchableFolder fs ++ map SearchableFile gs) criteria = Ok results ->
  Exists isOther results ->
  SearchService_advancedSearch dp engine criteria
  = ([GetFolders; GetFiles], Throw (Error "Unknown searchable item type")).
Proof.
  intros HF HG He Hother.
  unfold SearchService_advancedSearch, Promise_all.
  cbn [Eff.bind Eff.call Eff.ret Eff.lift outcome app].
  rewrite HF, HG.
  cbn [Eff.bind Eff.call Eff.ret Eff.lift outcome app].
  rewrite He.
  cbn [Eff.bind Eff.call Eff.ret Eff.lift app].
  rewrite (FailureFacts.mapM_toSearchResult_other Hother). reflexivity.
Qed.

Lemma advancedSearch_unknown_item_witness :
  let engine : ISearchEngine :=
    fun items _ => Ok (items ++ [OtherSearchable "9" "link" "/link" file]) in
  SearchService_advancedSearch Fixtures.mockDataProvider engine
    (TypeSearchCriteria (Str "file"))
  = ([GetFolders; GetFiles], Throw (Error "Unknown searchable item type")).
Proof.
  intros engine.
  apply (@advancedSearch_unknown_item Fixtures.mockDataProvider engine
           (TypeSearchCriteria (Str "file")) Fixtures.mockFolders Fixtures.mockFiles
           _ eq_refl eq_refl eq_refl).
  apply Exists_app. right. left. exact I.
Defined.

(* ------------------------------------------------------------------ *)
(** ** What the builder accepts *)

Module BuilderShape.
Import ResultMonad.

Lemma mapM_Forall2 {A B} (f : A -> Result B) (xs : list A) (ys : list B) :
  mapM f xs = Ok ys <-> Forall2 (fun x y => f x = Ok y) xs ys.
Proof.
  revert ys; induction xs as [|x xs IH]; intros ys; simpl.
  - split; [intros H; injection H as <-; constructor | inversion 1; reflexivity].
  - split.
    + destruct (f x) as [y|e] eqn:E; simpl; [| discriminate].
      destruct (mapM f xs) as [zs|e]; simpl; [| discriminate].
      intros H. injection H as <-. constructor; [exact E | now apply IH].
    + inversion 1 as [|? y ? zs Hy Hzs]; subst. rewrite Hy. simpl.
      apply IH in Hzs. now rewrite Hzs.
Qed.

Lemma buildCriteria_inv (data : any) (c : ISearchCriteria) :
  buildCriteria data = Ok c -> Built data c.
Proof.
  rewrite BuilderFacts.buildCriteria_unfold. unfold buildCriteria_body.
  destruct (Any.get data "type") as [type|e] eqn:Htype; [| discriminate].
  cbn [bind]. unfold buildCriteria_switch.
  destruct type as [| |b|r|s|l|ps]; try discriminate.
  destruct (String.eqb_spec s "name") as [-> | _].
  { destruct (Any.get data "value") as [v|e] eqn:Hv; [| discriminate].
    cbn [bind]. intros H. injection H as <-. now constructor. }
  destruct (String.eqb_spec s "path") as [-> | _].
  { destruct (Any.get data "value") as [v|e] eqn:Hv; [| discriminate].
    cbn [bind]. intros H. injection H as <-. now constructor. }
  destruct (String.eqb_spec s "type") as [-> | _].
  { destruct (Any.get data "value") as [v|e] eqn:Hv; [| discriminate].
    cbn [bind]. intros H. injection H as <-. now constructor. }
  destruct (String.eqb_spec s "and") as [-> | _].
  { destruct (Any.get data "children") as [ch|e] eqn:Hch; [| discriminate].
    cbn [bind]. destruct ch as [| |b|r|s|l|ps]; try discriminate.
    cbn [arrayMap]. destruct (mapM buildCriteria l) as [built|e] eqn:Hb;
      [| discriminate].
    cbn [bind]. intros H. injection H as <-. now apply built_and with l. }
  destruct (String.eqb_spec s "or") as [-> | _]; [| discriminate].
  destruct (Any.get data "children") as [ch|e] eqn:Hch; [| discriminate].
  cbn [bind]. destruct ch as [| |b|r|s|l|ps]; try discriminate.
  cbn [arrayMap]. destruct (mapM buildCriteria l) as [built|e] eqn:Hb;
    [| discriminate].
  cbn [bind]. intros H. injection H as <-. now apply built_or with l.
Qed.

Lemma buildCriteria_leaf (data : any) (s : string) (value : any) :
  Any.get data "type" = Ok (Str s) ->
  Any.get data "value" = Ok value ->
  (s = "name" -> buildCriteria data = Ok (NameSearchCriteria value))
  /\ (s = "path" -> buildCriteria data = Ok (PathSearchCriteria value))
  /\ (s = "type" -> buildCriteria data = Ok (TypeSearchCriteria value)).
Proof.
  intros Ht Hv. rewrite BuilderFacts.buildCriteria_unfold. unfold buildCriteria_body.
  rewrite Ht, Hv. repeat split; intros ->; reflexivity.
Qed.

Lemma buildCriteria_composite (data : any) (children : list any)
  (built : list ISearchCriteria) :
  Any.get data "children" = Ok (Arr children) ->
  mapM buildCriteria children = Ok built ->
  (Any.get data "type" = Ok (Str "and") ->
   buildCriteria data = Ok (AndSearchCriteria built))
  /\ (Any.get data "type" = Ok (Str "or") ->
      buildCriteria data = Ok (OrSearchCriteria built)).
Proof.
  intros Hch Hb. rewrite BuilderFacts.buildCriteria_unfold. unfold buildCriteria_body.
  rewrite Hch. split; intros ->; cbn; now rewrite Hb.
Qed.

Lemma get_value_total (data : any) (type : any) :
  Any.get data "type" = Ok type -> exists value, Any.get data "value" = Ok value.
Proof. destruct data; simpl; try discriminate; eauto. Qed.

Lemma mapM_exists {A B} (f : A -> Result B) (Q : B -> Prop) (xs : list A) :
  Forall (fun x => exists y, f x = Ok y /\ Q y) xs ->
  exists ys, mapM f xs = Ok ys /\ Forall Q ys.
Proof.
  induction 1 as [|x xs [y [Hy HQ]] _ [ys [Hys HQs]]]; simpl.
  - exists []. split; [reflexivity | constructor].
  - exists (y :: ys). rewrite Hy, Hys. split; [reflexivity | now constructor].
Qed.

Lemma wellFormed_builds (data : any) :
  WellFormedNode data -> exists c, buildCriteria data = Ok c.
Proof.
  revert data. fix IH 2. intros data [d s Ht Hs | d s children Ht Hs Hch Hall].
  - destruct (get_value_total d Ht) as [value Hv].
    destruct (buildCriteria_leaf d Ht Hv) as [H1 [H2 H3]].
    destruct Hs as [-> | [-> | ->]]; eauto.
  - assert (Hb : exists built, mapM buildCriteria children = Ok built /\ Forall (fun _ => True) built).
    { apply (@mapM_exists _ _ buildCriteria (fun _ => True)).
      clear Hch. induction Hall as [|child children Hchild _ IHall]; constructor.
      - destruct (IH child Hchild) as [c Hc]. now exists c.
      - exact IHall. }
    destruct Hb as [built [Hb _]].
    destruct (buildCriteria_composite d Hch Hb) as [H1 H2].
    destruct Hs as [-> | ->]; eauto.
Qed.

Lemma builds_wellFormed (c : ISearchCriteria) :
  forall data, buildCriteria data = Ok c -> WellFormedNode data.
Proof.
  induction c as [v|v|v|cs IH|cs IH|run] using CriteriaFacts.ISearchCriteria_induction;
    intros data H; apply buildCriteria_inv in H; inversion H; subst.
  - apply wf_leaf with "name"; auto.
  - apply wf_leaf with "path"; auto.
  - apply wf_leaf with "type"; auto.
  - apply wf_composite with "and" children; auto.
    match goal with Hm : mapM _ _ = Ok _ |- _ => apply mapM_Forall2 in Hm; rename Hm into F end.
    clear - IH F. induction F as [|x y xs ys Hxy _ IHF]; constructor.
    + inversion IH; subst. auto.
    + apply IHF. now inversion IH.
  - apply wf_composite with "or" children; auto.
    match goal with Hm : mapM _ _ = Ok _ |- _ => apply mapM_Forall2 in Hm; rename Hm into F end.
    clear - IH F. induction F as [|x y xs ys Hxy _ IHF]; constructor.
    + inversion IH; subst. auto.
    + apply IHF. now inversion IH.
Qed.

End BuilderShape.

Module BuilderTyping.
Import ResultMonad BuilderShape.

Lemma typed_builds (data : any) :
  TypedNode data -> exists c, buildCriteria data = Ok c /\ WellTyped c.
Proof.
  revert data. fix IH 2.
  intros data [d s v Ht Hs Hv | d t Ht Hv | d s children Ht Hs Hch Hall].
  - destruct (buildCriteria_leaf d Ht Hv) as [H1 [H2 _]].
    destruct Hs as [-> | ->]; eexists; (split; [auto |]); now exists v.
  - destruct (buildCriteria_leaf d Ht Hv) as [_ [_ H3]].
    eexists; split; [auto |]. now exists t.
  - assert (Hb : exists built, mapM buildCriteria children = Ok built
                               /\ Forall WellTyped built).
    { apply (@mapM_exists _ _ buildCriteria WellTyped).
      clear Hch. induction Hall as [|child children Hchild _ IHall]; constructor.
      - exact (IH child Hchild).
      - exact IHall. }
    destruct Hb as [built [Hb HW]].
    destruct (buildCriteria_composite d Hch Hb) as [H1 H2].
    destruct Hs as [-> | ->]; eexists; (split; [auto |]).
    + now apply CriteriaFacts.WellTyped_children.
    + now apply CriteriaFacts.WellTyped_And_Or, CriteriaFacts.WellTyped_children.
Qed.

Lemma builds_typed (c : ISearchCriteria) :
  forall data, buildCriteria data = Ok c -> WellTyped c -> TypedNode data.
Proof.
  induction c as [v|v|v|cs IH|cs IH|run] using CriteriaFacts.ISearchCriteria_induction;
    intros data H W; apply buildCriteria_inv in H; inversion H; subst.
  - destruct W as [s ->]. apply typed_text with "name" s; auto.
  - destruct W as [s ->]. apply typed_text with "path" s; auto.
  - destruct W as [t ->]. now apply typed_type with t.
  - apply typed_composite with "and" children; auto.
    apply CriteriaFacts.WellTyped_children in W.
    match goal with Hm : mapM _ _ = Ok _ |- _ => apply mapM_Forall2 in Hm; rename Hm into F end.
    clear - IH F W. induction F as [|x y xs ys Hxy _ IHF]; constructor.
    + inversion IH; inversion W; subst. auto.
    + inversion IH; inversion W; subst. auto.
  - apply typed_composite with "or" children; auto.
    apply CriteriaFacts.WellTyped_And_Or, CriteriaFacts.WellTyped_children in W.
    match goal with Hm : mapM _ _ = Ok _ |- _ => apply mapM_Forall2 in Hm; rename Hm into F end.
    clear - IH F W. induction F as [|x y xs ys Hxy _ IHF]; constructor.
    + inversion IH; inversion W; subst. auto.
    + inversion IH; inversion W; subst. auto.
Qed.

Lemma typed_list_builds (criteriaData : list any) :
  criteriaData <> [] ->
  Forall TypedNode criteriaData ->
  exists c, buildSearchCriteria criteriaData = Ok c /\ WellTyped c.
Proof.
  intros Hne Hall. unfold buildSearchCriteria.
  destruct (List.length criteriaData =? 1)%nat eqn:E.
  - destruct criteriaData as [|d [|? ?]]; try discriminate.
    simpl. apply typed_builds. now inversion Hall.
  - destruct (@mapM_exists _ _ buildCriteria WellTyped criteriaData)
      as [built [Hb HW]].
    { clear - Hall. induction Hall; constructor; auto using typed_builds. }
    rewrite Hb. eexists. split; [reflexivity |].
    now apply CriteriaFacts.WellTyped_children.
Qed.

End BuilderTyping.

(** X12.  [buildCriteria] returns a criterion exactly for the well-formed
    descriptions: nodes of type name, path or type (whatever their value,
    even absent), and nodes of type and/or whose [children] is an array of
    well-formed descriptions.  On anything else it throws. *)
Theorem buildCriteria_succeeds_iff (data : any) :
  (exists c, buildCriteria data = Ok c) <-> WellFormedNode data.
Proof.
  split.
  - intros [c H]. exact (@BuilderShape.builds_wellFormed c data H).
  - apply BuilderShape.wellFormed_builds.
Qed.

(** X13.  The criterion [buildCriteria] returns is typed as the constructors
    declare exactly when the description is typed as the request declares:
    string values on name and path nodes, 'folder' or 'file' on type nodes,
    at every depth.  Only such criteria are sure not to throw when they are
    executed. *)
Theorem buildCriteria_typed_iff (data : any) :
  (exists c, buildCriteria data = Ok c /\ WellTyped c) <-> TypedNode data.
Proof.
  split.
  - intros [c [H W]]. exact (@BuilderTyping.builds_typed c data H W).
  - apply BuilderTyping.typed_builds.
Qed.

(** X14.  When the body of [POST /advanced] holds a non-empty array of
    typed descriptions and both fetches resolve, the handler builds the
    criterion, passes it to the advanced search and answers
    [{success: true, data}] with the records of the folders, then files,
    the criterion matches. *)
Theorem postAdvanced_success (dp : ISearchDataProvider) (body : any)
  (criteriaData : list any) (fs : list Folder.t) (gs : list File.t) :
  Any.get body "criteria" = Ok (Arr criteriaData) ->
  criteriaData <> [] ->
  Forall TypedNode criteriaData ->
  outcome (getFolders dp) = Ok fs ->
  outcome (getFiles dp) = Ok gs ->
  exists criteria,
    buildSearchCriteria criteriaData = Ok criteria
    /\ let found := resultItems (matches criteria) fs gs in
       postAdvanced dp body
       = ([BuildSearchCriteria criteriaData; ServiceAdvancedSearch criteria;
           GetFolders; GetFiles],
          Ok (Success (mkSearchResult found (List.length found) "Advanced Search"))).
Proof.
  intros Hget Hne Hall HF HG.
  destruct (BuilderTyping.typed_list_builds Hne Hall) as [criteria [Hb W]].
  exists criteria. split; [exact Hb |]. intros found.
  unfold postAdvanced. rewrite Hget.
  destruct criteriaData as [|d ds]; [contradiction |].
  cbn [Eff.lift Eff.bind Any.falsy Any.isArray negb orb List.length Nat.eqb Eff.call].
  rewrite Hb. cbn [Eff.lift Eff.bind Eff.call app].
  rewrite (@ServiceEdges.advanced_resolved dp criteria fs gs HF HG W).
  reflexivity.
Qed.

Lemma postAdvanced_success_witness :
  let node := Obj [("type", Str "or");
                   ("children", Arr [Obj [("type", Str "name"); ("value", Str "video")];
                                     Obj [("type", Str "type"); ("value", Str "folder")]])] in
  option_map (fun r => map SearchResultItem.name (items r))
    (match Eff.result (postAdvanced Fixtures.mockDataProvider
                         (Obj [("criteria", Arr [node])])) with
     | Ok (Success r) => Some r
     | _ => None
     end)
  = Some ["Documents"; "Images"; "Videos"; "video.mp4"].
Proof.
  intros node.
  assert (T : Forall TypedNode [node]).
  { constructor; [| constructor].
    apply typed_composite with "or"
      [Obj [("type", Str "name"); ("value", Str "video")];
       Obj [("type", Str "type"); ("value", Str "folder")]]; auto.
    repeat constructor.
    - now apply typed_text with "name" "video"; auto.
    - now apply typed_type with folder. }
  destruct (@postAdvanced_success Fixtures.mockDataProvider
              (Obj [("criteria", Arr [node])]) [node]
              Fixtures.mockFolders Fixtures.mockFiles eq_refl
              ltac:(discriminate) T eq_refl eq_refl) as [criteria [Hb H]].
  rewrite H. injection Hb as <-. reflexivity.
Defined.

(* ------------------------------------------------------------------ *)
(** ** The result records *)

Module RecordFacts.

Lemma to_int_not_nil (n : Z) :
  Z.to_int n <> Decimal.Pos Decimal.Nil /\ Z.to_int n <> Decimal.Neg Decimal.Nil.
Proof.
  split; intros H; pose proof (f_equal Z.of_int H) as E;
    rewrite DecimalZ.of_to in E; simpl in E; subst n; discriminate H.
Qed.

(** The decimal rendering of an integer can be read back. *)
Lemma numberToString_parse (n : Z) :
  option_map Z.of_int (NilZero.int_of_string (numberToString n)) = Some n.
Proof.
  unfold numberToString. destruct (to_int_not_nil n) as [H1 H2].
  rewrite NilZero.isi by assumption. simpl. now rewrite DecimalZ.of_to.
Qed.

Lemma numberToString_inj (a b : Z) : numberToString a = numberToString b -> a = b.
Proof.
  intros H. pose proof (numberToString_parse a) as Ha.
  rewrite H, numberToString_parse in Ha. congruence.
Qed.

Lemma numberToString_not_empty (n : Z) : numberToString n <> EmptyString.
Proof.
  intros H. pose proof (numberToString_parse n) as Hn. rewrite H in Hn. discriminate.
Qed.

Lemma orNull_numberToString (n : Z) :
  orNull (Some (numberToString n)) = Some (numberToString n).
Proof.
  pose proof (numberToString_not_empty n) as H.
  now destruct (numberToString n).
Qed.

End RecordFacts.

(** X15.  In a result record the parent is never lost and an empty size is:
    the record of a folder has the rendering of its [parentId] (none for a
    root) and no [size]; the record of a file has the rendering of its
    [folderId], even 0, and has a [size] exactly when the size of the file
    is a number other than 0. *)
Theorem toSearchResult_parent_and_size :
  (forall f : Folder.t,
      SearchResultItem.parentId (SearchableFolder_toSearchResult f)
      = option_map numberToString (Folder.parentId f)
      /\ SearchResultItem.size (SearchableFolder_toSearchResult f) = None)
  /\ (forall f : File.t,
        SearchResultItem.parentId (SearchableFile_toSearchResult f)
        = Some (numberToString (File.folderId f))
        /\ (SearchResultItem.size (SearchableFile_toSearchResult f) = None
            <-> File.size f = None \/ File.size f = Some 0%Z)
        /\ (forall n, SearchResultItem.size (SearchableFile_toSearchResult f) = Some n
                      -> File.size f = Some n /\ n <> 0%Z)).
Proof.
  split.
  - intros f. split; [| reflexivity]. simpl.
    destruct (Folder.parentId f) as [p|]; [| reflexivity].
    apply RecordFacts.orNull_numberToString.
  - intros f. split; [apply RecordFacts.orNull_numberToString |].
    simpl. destruct (File.size f) as [[|p|p]|]; simpl; split;
      try (split; intros H; try discriminate; auto;
           destruct H as [H | H]; discriminate);
      intros n H; try discriminate; injection H as <-; split;
        [reflexivity | discriminate | reflexivity | discriminate].
Qed.

Lemma toSearchResult_parent_and_size_witness :
  let empty := File.mk 5 "empty.txt" 0 (Some 0%Z) (Some "txt") "/empty.txt" 0%Z 0%Z in
  SearchResultItem.size (SearchableFile_toSearchResult empty) = None
  /\ SearchResultItem.parentId (SearchableFile_toSearchResult empty) = Some "0".
Proof.
  intros empty.
  destruct (proj2 toSearchResult_parent_and_size empty) as [Hparent [Hsize _]].
  split; [apply Hsize; now right | exact Hparent].
Defined.

(** X16.  For rows whose ids are values of the integer column, the [id]
    of a result record identifies the row among the rows of its kind: two
    folders, or two files, whose records have the same [id] have the same
    numeric id, and the numeric id of a folder or of a file is what the
    [id] of its record reads as a decimal numeral. *)
Theorem toSearchResult_id_injective :
  (forall f g : Folder.t,
      inIntegerColumn (Folder.id f) -> inIntegerColumn (Folder.id g) ->
      SearchResultItem.id (SearchableFolder_toSearchResult f)
      = SearchResultItem.id (SearchableFolder_toSearchResult g)
      -> Folder.id f = Folder.id g)
  /\ (forall f g : File.t,
        inIntegerColumn (File.id f) -> inIntegerColumn (File.id g) ->
        SearchResultItem.id (SearchableFile_toSearchResult f)
        = SearchResultItem.id (SearchableFile_toSearchResult g)
        -> File.id f = File.id g)
  /\ (forall f : Folder.t,
        inIntegerColumn (Folder.id f) ->
        option_map Z.of_int
          (NilZero.int_of_string (SearchResultItem.id (SearchableFolder_toSearchResult f)))
        = Some (Folder.id f))
  /\ (forall f : File.t,
        inIntegerColumn (File.id f) ->
        option_map Z.of_int
          (NilZero.int_of_string (SearchResultItem.id (SearchableFile_toSearchResult f)))
        = Some (File.id f)).
Proof.
  split; [| split; [| split]].
  - intros f g _ _. apply RecordFacts.numberToString_inj.
  - intros f g _ _. apply RecordFacts.numberToString_inj.
  - intros f _. apply RecordFacts.numberToString_parse.
  - intros f _. apply RecordFacts.numberToString_parse.
Qed.

Lemma toSearchResult_id_injective_witness :
  let f := Folder.mk 2 "Images" (Some 1%Z) "/Documents/Images" 0%Z 0%Z in
  let g := Folder.mk 2 "Pictures" None "/Pictures" 0%Z 0%Z in
  let h := File.mk 2147483647 "last.txt" 2 None None "/last.txt" 0%Z 0%Z in
  Folder.id f = Folder.id g
  /\ option_map Z.of_int
       (NilZero.int_of_string (SearchResultItem.id (SearchableFile_toSearchResult h)))
     = Some 2147483647%Z.
Proof.
  intros f g h.
  assert (R : inIntegerColumn 2) by (unfold inIntegerColumn; lia).
  assert (R' : inIntegerColumn 2147483647) by (unfold inIntegerColumn; lia).
  split.
  - apply (proj1 toSearchResult_id_injective f g R R). reflexivity.
  - apply (proj2 (proj2 (proj2 toSearchResult_id_injective)) h R').
Defined.

(* ------------------------------------------------------------------ *)
(** ** The search by type *)

Module ByTypeFacts.

Lemma matches_type (t : ItemType) (item : ISearchable) :
  matches (TypeSearchCriteria (Str (ItemType_name t))) item
  = ItemType_eqb (getType item) t.
Proof. unfold matches. simpl. now destruct (getType item), t. Qed.

Lemma resultItems_of_type (t : ItemType) (text : ISearchable -> bool)
  (fs : list Folder.t) (gs : list File.t) :
  resultItems (fun item => ItemType_eqb (getType item) t && text item) fs gs
  = match t with
    | folder =>
        map SearchableFolder_toSearchResult
          (filter (fun f => text (SearchableFolder f)) fs)
    | file =>
        map SearchableFile_toSearchResult
          (filter (fun f => text (SearchableFile f)) gs)
    end.
Proof.
  unfold resultItems. destruct t; simpl.
  - rewrite (EngineFacts.filter_false (fun f : File.t => false)) by reflexivity.
    apply app_nil_r.
  - rewrite (EngineFacts.filter_false (fun f : Folder.t => false)) by reflexivity.
    reflexivity.
Qed.

End ByTypeFacts.

(** X17.  [GET /by-type/:type] compares the route parameter exactly: for
    every value other than 'file' and 'folder' (another case, a plural) the
    handler answers [{success: false, error: "Type must be 'file' or
    'folder'"}] and calls nothing. *)
Theorem getByType_rejects_type (dp : ISearchDataProvider) (type : string)
  (searchQuery : option string) :
  type <> "file" -> type <> "folder" ->
  getByType dp type searchQuery
  = ([], Ok (Failure (Text "Type must be 'file' or 'folder'"))).
Proof.
  intros H1 H2. unfold getByType.
  apply String.eqb_neq in H1, H2. rewrite H1, H2. reflexivity.
Qed.

Lemma getByType_rejects_type_witness :
  getByType Fixtures.mockDataProvider "Folder" None
  = ([], Ok (Failure (Text "Type must be 'file' or 'folder'"))).
Proof. apply getByType_rejects_type; discriminate. Defined.

(** X18.  When both fetches resolve, [GET /by-type/:type] for 'folder'
    answers with records of folders only, and for 'file' with records of
    files only: all of them when [q] is missing or blank, and otherwise
    those whose name or path contains [q] as it was sent. *)
Theorem getByType_lists_one_type (dp : ISearchDataProvider) (t : ItemType)
  (searchQuery : option string) (fs : list Folder.t) (gs : list File.t) :
  outcome (getFolders dp) = Ok fs ->
  outcome (getFiles dp) = Ok gs ->
  let text := fun item =>
    if hasText searchQuery
    then matches (NameSearchCriteria (Str (withDefault "" searchQuery))) item
         || matches (PathSearchCriteria (Str (withDefault "" searchQuery))) item
    else true in
  let found :=
    match t with
    | folder =>
        map SearchableFolder_toSearchResult
          (filter (fun f => text (SearchableFolder f)) fs)
    | file =>
        map SearchableFile_toSearchResult
          (filter (fun f => text (SearchableFile f)) gs)
    end in
  exists criteria,
    getByType dp (ItemType_name t) searchQuery
    = ([ServiceAdvancedSearch criteria; GetFolders; GetFiles],
       Ok (Success (mkSearchResult found (List.length found) "Advanced Search"))).
Proof.
  intros HF HG text found. unfold getByType.
  assert (Hname : negb (String.eqb (ItemType_name t) "file")
                  && negb (String.eqb (ItemType_name t) "folder") = false)
    by now destruct t.
  rewrite Hname. cbv zeta.
  match goal with
  | |- context [Eff.call (ServiceAdvancedSearch ?c) tt] => set (criteria := c)
  end.
  exists criteria.
  assert (W : WellTyped criteria).
  { subst criteria. destruct (hasText searchQuery); simpl.
    - repeat split; try (now exists t); eexists; reflexivity.
    - now exists t. }
  assert (M : forall item,
             matches criteria item = ItemType_eqb (getType item) t && text item).
  { intros item. subst criteria text. destruct (hasText searchQuery).
    - rewrite EngineFacts.matches_pair;
        [| now exists t | simpl; repeat split; eexists; reflexivity].
      rewrite ByTypeFacts.matches_type. f_equal.
      apply (ServiceFacts.matches_free_text _ true).
    - rewrite ByTypeFacts.matches_type. now rewrite andb_true_r. }
  cbn [Eff.bind Eff.call].
  rewrite (@ServiceEdges.advanced_resolved dp criteria fs gs HF HG W).
  cbn [Eff.tryCatch Eff.bind Eff.ret app].
  subst found. rewrite <- ByTypeFacts.resultItems_of_type.
  unfold resultItems.
  rewrite (filter_ext _ _ (fun f => M (SearchableFolder f))).
  rewrite (filter_ext _ _ (fun f => M (SearchableFile f))).
  reflexivity.
Qed.

Lemma getByType_lists_one_type_witness :
  option_map (fun r => map SearchResultItem.name (items r))
    (match Eff.result (getByType Fixtures.mockDataProvider "folder" (Some "  ")) with
     | Ok (Success r) => Some r
     | _ => None
     end)
  = Some ["Documents"; "Images"; "Videos"].
Proof.
  destruct (@getByType_lists_one_type Fixtures.mockDataProvider folder (Some "  ")
              Fixtures.mockFolders Fixtures.mockFiles eq_refl eq_refl)
    as [criteria H].
  change (ItemType_name folder) with "folder" in H. rewrite H. reflexivity.
Defined.

(* ------------------------------------------------------------------ *)
(** ** The folder tree *)

Module TreeFacts.

Lemma sameParent_eq (a b : option Z) : sameParent a b = true <-> a = b.
Proof.
  destruct a as [x|], b as [y|]; simpl; try (split; [discriminate | discriminate]).
  - rewrite Z.eqb_eq. split; congruence.
  - split; reflexivity.
Qed.

Lemma in_subfolders (folders : list Folder.t) (p : option Z) (f : Folder.t) :
  In f (subfolders folders p) <-> In f folders /\ Folder.parentId f = p.
Proof. unfold subfolders. now rewrite filter_In, sameParent_eq. Qed.

Lemma allSome_Forall2 {A B} (g : A -> option B) (l : list A) (r : list B) :
  allSome (map g l) = Some r <-> Forall2 (fun a b => g a = Some b) l r.
Proof.
  revert r; induction l as [|a l IH]; intros r; simpl.
  - split; [intros H; injection H as <-; constructor | inversion 1; reflexivity].
  - destruct (g a) as [b|] eqn:E.
    + destruct (allSome (map g l)) as [r'|].
      * split.
        -- intros H. injection H as <-. constructor; [exact E | now apply IH].
        -- inversion 1 as [|? b' ? r'' Hb Hr]; subst. apply IH in Hr. congruence.
      * split; [discriminate |].
        inversion 1 as [|? b' ? r'' Hb Hr]; subst. apply IH in Hr. discriminate.
    + split; [discriminate | inversion 1; congruence].
Qed.

Lemma allSome_exists {A B} (g : A -> option B) (l : list A) :
  (forall a, In a l -> exists b, g a = Some b) -> exists r, allSome (map g l) = Some r.
Proof.
  induction l as [|a l IH]; intros H; simpl; [now exists [] |].
  destruct (H a (or_introl eq_refl)) as [b ->].
  destruct IH as [r ->]; [intros; apply H; now right |]. now exists (b :: r).
Qed.

Lemma unique_row (folders : list Folder.t) (f g : Folder.t) :
  NoDup (map Folder.id folders) ->
  In f folders -> In g folders -> Folder.id f = Folder.id g -> f = g.
Proof.
  induction folders as [|x folders IH]; simpl; intros ND Hf Hg E; [destruct Hf |].
  inversion ND as [|? ? Hx ND']; subst.
  destruct Hf as [-> | Hf], Hg as [-> | Hg]; trivial.
  - destruct Hx. rewrite E. now apply in_map.
  - destruct Hx. rewrite <- E. now apply in_map.
  - now apply IH.
Qed.

Lemma ancestry_suffix (folders : list Folder.t) (l1 l2 : list Z) :
  ancestry folders (l1 ++ l2) -> ancestry folders l2.
Proof. induction l1 as [|a l1 IH]; simpl; [trivial | intros [_ H]; auto]. Qed.

Lemma ancestry_ids (folders : list Folder.t) (chain : list Z) :
  ancestry folders chain -> incl chain (map Folder.id folders).
Proof.
  induction chain as [|a rest IH]; simpl; intros H x Hx; [destruct Hx |].
  destruct H as [[f [Hf [Hid _]]] Hrest]. destruct Hx as [<- | Hx].
  - rewrite <- Hid. now apply in_map.
  - now apply IH.
Qed.

(** With unique ids a row is not its own ancestor. *)
Lemma ancestry_fresh (folders : list Folder.t) (a : Z) (rest : list Z) :
  NoDup (map Folder.id folders) ->
  ancestry folders (a :: rest) -> NoDup rest -> ~ In a rest.
Proof.
  intros ND [[f [Hf [Hid Hpar]]] Hrest] NDrest Hin.
  apply in_split in Hin as [l1 [l2 ->]].
  pose proof (@ancestry_suffix folders l1 (a :: l2) Hrest) as [[g [Hg [Hgid Hgpar]]] _].
  assert (f = g) by (apply (@unique_row folders); congruence). subst g.
  rewrite Hpar in Hgpar. destruct l1 as [|h l1]; simpl in *.
  - destruct l2 as [|h l2]; [discriminate |]. injection Hgpar as <-.
    inversion NDrest as [|? ? Hn _]; subst. apply Hn. now left.
  - destruct l2 as [|h' l2]; [discriminate |]. injection Hgpar as <-.
    inversion NDrest as [|? ? Hn _]; subst. apply Hn.
    apply in_or_app. right. right. now left.
Qed.

Lemma ancestry_NoDup (folders : list Folder.t) (chain : list Z) :
  NoDup (map Folder.id folders) -> ancestry folders chain -> NoDup chain.
Proof.
  intros ND. induction chain as [|a rest IH]; intros H; constructor.
  - apply (@ancestry_fresh folders a rest); trivial. apply IH. now destruct H.
  - apply IH. now destruct H.
Qed.

(** The recursion below a chain of ancestors ends within the rows that are
    not yet on the chain. *)
Lemma buildFolderTree_ends (folders : list Folder.t) (depth : nat) :
  NoDup (map Folder.id folders) ->
  forall chain,
    ancestry folders chain ->
    List.length folders < depth + List.length chain ->
    exists tree, buildFolderTree depth folders (hd_error chain) = Some tree.
Proof.
  intros ND. induction depth as [|depth IH]; intros chain Hchain Hlen.
  - exfalso. simpl in Hlen.
    pose proof (NoDup_incl_length (@ancestry_NoDup folders chain ND Hchain)
                  (@ancestry_ids folders chain Hchain)) as Hle.
    rewrite length_map in Hle. lia.
  - cbn [buildFolderTree]. apply allSome_exists. intros c Hc.
    apply in_subfolders in Hc as [Hc Hpar].
    destruct (IH (Folder.id c :: chain)) as [tree Htree].
    + simpl. split; [| exact Hchain]. now exists c.
    + simpl. lia.
    + simpl in Htree. rewrite Htree. simpl. eauto.
Qed.

Lemma buildFolderTree_deeper (folders : list Folder.t) (depth : nat) :
  forall p tree,
    buildFolderTree depth folders p = Some tree ->
    buildFolderTree (S depth) folders p = Some tree.
Proof.
  induction depth as [|depth IH]; intros p tree H; [discriminate |].
  cbn [buildFolderTree] in H. apply allSome_Forall2 in H.
  change (buildFolderTree (S (S depth)) folders p)
    with (allSome
            (map (fun folder =>
                    option_map
                      (fun built =>
                         mkFolderTreeNode (Folder.id folder) (Folder.name folder)
                           (Folder.path folder) (Folder.parentId folder) built
                           (existsb
                              (fun f => sameParent (Folder.parentId f)
                                          (Some (Folder.id folder)))
                              folders))
                      (buildFolderTree (S depth) folders (Some (Folder.id folder))))
                 (subfolders folders p))).
  apply allSome_Forall2.
  induction H as [|c node cs nodes Hc _ IHF]; constructor; [| exact IHF].
  destruct (buildFolderTree depth folders (Some (Folder.id c))) as [built|] eqn:E;
    [| discriminate].
  now rewrite (IH _ _ E).
Qed.

End TreeFacts.

Module TreeShape.
Import TreeFacts.

Lemma node_ids_eq (i : Z) (nm pth : string) (par : option Z)
  (ch : list FolderTreeNode) (has : bool) :
  node_ids (mkFolderTreeNode i nm pth par ch has) = i :: tree_ids ch.
Proof.
  reflexivity.
Qed.

Lemma NodeOfRows_eq (folders : list Folder.t) (i : Z) (nm pth : string)
  (par : option Z) (ch : list FolderTreeNode) (has : bool) :
  NodeOfRows folders (mkFolderTreeNode i nm pth par ch has)
  <-> Forall2 describes (subfolders folders (Some i)) ch
      /\ (has = true <-> ch <> [])
      /\ Forall (NodeOfRows folders) ch.
Proof.
  simpl.
  assert (E : (fix all (l : list FolderTreeNode) : Prop :=
                 match l with
                 | [] => True
                 | c :: l' => NodeOfRows folders c /\ all l'
                 end) ch <-> Forall (NodeOfRows folders) ch).
  { induction ch as [|c ch IH].
    - split; [constructor | trivial].
    - rewrite IH. split; [intros [H1 H2]; now constructor | now inversion 1]. }
  split; intros [H1 [H2 H3]]; (split; [exact H1 | split; [exact H2 | now apply E]]).
Qed.

Lemma existsb_subfolders (folders : list Folder.t) (p : option Z) :
  existsb (fun f => sameParent (Folder.parentId f) p) folders = true
  <-> subfolders folders p <> [].
Proof.
  unfold subfolders. induction folders as [|f folders IH]; simpl.
  - split; [discriminate | congruence].
  - destruct (sameParent (Folder.parentId f) p); simpl.
    + split; [discriminate | reflexivity].
    + exact IH.
Qed.

Lemma Forall2_nil_iff {A B} (R : A -> B -> Prop) (l : list A) (r : list B) :
  Forall2 R l r -> (l <> [] <-> r <> []).
Proof. destruct 1; split; congruence. Qed.

Lemma Forall2_in_r {A B} (R : A -> B -> Prop) (l : list A) (r : list B) (b : B) :
  Forall2 R l r -> In b r -> exists a, In a l /\ R a b.
Proof.
  induction 1 as [|a b' l r Hab _ IH]; intros Hin; [destruct Hin |].
  destruct Hin as [<- | Hin].
  - exists a. split; [now left | exact Hab].
  - destruct (IH Hin) as [a' [Ha' HR]]. exists a'. split; [now right | exact HR].
Qed.

Lemma Forall2_in_l {A B} (R : A -> B -> Prop) (l : list A) (r : list B) (a : A) :
  Forall2 R l r -> In a l -> exists b, In b r /\ R a b.
Proof.
  induction 1 as [|a' b l r Hab _ IH]; intros Hin; [destruct Hin |].
  destruct Hin as [<- | Hin].
  - exists b. split; [now left | exact Hab].
  - destruct (IH Hin) as [b' [Hb' HR]]. exists b'. split; [now right | exact HR].
Qed.

(** What one level of the recursion returns for one child. *)
Lemma built_node (folders : list Folder.t) (depth : nat) (c : Folder.t)
  (node : FolderTreeNode) :
  option_map
    (fun built =>
       mkFolderTreeNode (Folder.id c) (Folder.name c) (Folder.path c)
         (Folder.parentId c) built
         (existsb (fun f => sameParent (Folder.parentId f) (Some (Folder.id c)))
            folders))
    (buildFolderTree depth folders (Some (Folder.id c))) = Some node ->
  exists built,
    buildFolderTree depth folders (Some (Folder.id c)) = Some built
    /\ node = mkFolderTreeNode (Folder.id c) (Folder.name c) (Folder.path c)
                (Folder.parentId c) built
                (existsb (fun f => sameParent (Folder.parentId f) (Some (Folder.id c)))
                   folders).
Proof.
  destruct (buildFolderTree depth folders (Some (Folder.id c))) as [built|];
    [| discriminate].
  simpl. intros H. injection H as <-. now exists built.
Qed.

Lemma buildFolderTree_shape (folders : list Folder.t) (depth : nat) :
  forall p tree,
    buildFolderTree depth folders p = Some tree ->
    Forall2 describes (subfolders folders p) tree
    /\ Forall (NodeOfRows folders) tree.
Proof.
  induction depth as [|depth IH]; intros p tree H; [discriminate |].
  cbn [buildFolderTree] in H. apply allSome_Forall2 in H.
  induction H as [|c node cs nodes Hc _ [IH1 IH2]]; [split; constructor |].
  apply built_node in Hc as [built [Hb ->]].
  destruct (IH _ _ Hb) as [Hd Hn].
  split; constructor; trivial.
  - simpl. auto.
  - apply NodeOfRows_eq. split; [exact Hd |]. split; [| exact Hn].
    rewrite existsb_subfolders. now apply Forall2_nil_iff with describes.
Qed.

(** Every node is a row below the root of the call. *)
Lemma tree_ids_below (folders : list Folder.t) (depth : nat) :
  forall p tree,
    buildFolderTree depth folders p = Some tree ->
    forall i, In i (tree_ids tree) ->
              exists f, Folder.id f = i /\ Below folders p f.
Proof.
  induction depth as [|depth IH]; intros p tree H i Hi; [discriminate |].
  cbn [buildFolderTree] in H. apply allSome_Forall2 in H.
  unfold tree_ids in Hi. apply in_flat_map in Hi as [node [Hnode Hi]].
  destruct (Forall2_in_r _ H Hnode) as [c [Hc Hbuilt]].
  apply built_node in Hbuilt as [built [Hb ->]].
  apply in_subfolders in Hc as [Hc Hpar].
  rewrite node_ids_eq in Hi. destruct Hi as [<- | Hi].
  - exists c. split; [reflexivity | now constructor].
  - destruct (IH _ _ Hb i Hi) as [f [Hf Hbelow]]. exists f. split; [exact Hf |].
    clear - Hbelow Hc Hpar. induction Hbelow as [f Hin Hp | g f _ IHg Hin Hp].
    + apply below_step with c; trivial. now constructor.
    + now apply below_step with g.
Qed.

(** The children of a node of the tree are in the tree. *)
Lemma tree_ids_children (folders : list Folder.t) (depth : nat) :
  forall p tree,
    buildFolderTree depth folders p = Some tree ->
    forall i f, In i (tree_ids tree) ->
                In f folders -> Folder.parentId f = Some i ->
                In (Folder.id f) (tree_ids tree).
Proof.
  induction depth as [|depth IH]; intros p tree H i f Hi Hf Hpar; [discriminate |].
  cbn [buildFolderTree] in H. apply allSome_Forall2 in H.
  unfold tree_ids in Hi. apply in_flat_map in Hi as [node [Hnode Hi]].
  destruct (Forall2_in_r _ H Hnode) as [c [Hc Hbuilt]].
  apply built_node in Hbuilt as [built [Hb ->]].
  unfold tree_ids. apply in_flat_map. eexists. split; [exact Hnode |].
  rewrite node_ids_eq in *. right. destruct Hi as [<- | Hi].
  - destruct (@buildFolderTree_shape folders depth _ _ Hb) as [Hd _].
    assert (Hsub : In f (subfolders folders (Some (Folder.id c))))
      by now apply in_subfolders.
    destruct (Forall2_in_l _ Hd Hsub) as [n [Hn Hdesc]].
    unfold tree_ids. apply in_flat_map. exists n. split; [exact Hn |].
    destruct n as [ni ? ? ? ? ?]. rewrite node_ids_eq.
    left. now destruct Hdesc as [-> _].
  - now apply (IH _ _ Hb i f).
Qed.

Lemma below_in_tree (folders : list Folder.t) (depth : nat) (p : option Z)
  (tree : list FolderTreeNode) (f : Folder.t) :
  buildFolderTree depth folders p = Some tree ->
  Below folders p f -> In (Folder.id f) (tree_ids tree).
Proof.
  intros H. induction 1 as [f Hin Hp | g f _ IHg Hin Hp].
  - destruct depth as [|depth]; [discriminate |].
    destruct (@buildFolderTree_shape folders (S depth) _ _ H) as [Hd _].
    assert (Hsub : In f (subfolders folders p)) by now apply in_subfolders.
    destruct (Forall2_in_l _ Hd Hsub) as [n [Hn Hdesc]].
    unfold tree_ids. apply in_flat_map. exists n. split; [exact Hn |].
    destruct n as [ni ? ? ? ? ?]. rewrite node_ids_eq.
    left. now destruct Hdesc as [-> _].
  - now apply (@tree_ids_children folders depth _ _ H (Folder.id g) f).
Qed.

End TreeShape.

(** X19.  When the ids of the rows are unique, the recursion of
    [buildFolderTree] from the root ends: it nests no deeper than the number
    of rows plus one, whatever parent links the rows hold (missing parents,
    loops), and any larger bound gives the same tree. *)
Theorem buildFolderTree_terminates (folders : list Folder.t) :
  NoDup (map Folder.id folders) ->
  exists tree,
    forall depth, List.length folders < depth ->
                  buildFolderTree depth folders None = Some tree.
Proof.
  intros ND.
  destruct (@TreeFacts.buildFolderTree_ends folders (S (List.length folders)) ND [])
    as [tree Htree]; [exact I | simpl; lia |].
  exists tree. intros depth Hlt.
  replace depth with ((depth - S (List.length folders)) + S (List.length folders)) by lia.
  induction (depth - S (List.length folders)) as [|k IH]; [exact Htree |].
  now apply TreeFacts.buildFolderTree_deeper.
Qed.

Lemma buildFolderTree_terminates_witness :
  exists tree,
    buildFolderTree 4 Fixtures.mockFolders None = Some tree
    /\ tree_ids tree = [1%Z; 2%Z; 3%Z].
Proof.
  destruct (@buildFolderTree_terminates Fixtures.mockFolders) as [tree H].
  - repeat constructor; simpl; intuition discriminate.
  - exists tree. split; [apply H; simpl; lia |].
    specialize (H 4 ltac:(simpl; lia)). injection H as <-. reflexivity.
Defined.

(** Without unique ids the recursion need not end: a row that has the id of
    its parent is its own sub-folder at every depth. *)
Example buildFolderTree_duplicate_id :
  forall depth,
    buildFolderTree depth
      [Folder.mk 1 "a" None "a" 0%Z 0%Z; Folder.mk 1 "b" (Some 1%Z) "a/b" 0%Z 0%Z]
      None = None.
Proof.
  assert (H : forall depth,
             buildFolderTree depth
               [Folder.mk 1 "a" None "a" 0%Z 0%Z; Folder.mk 1 "b" (Some 1%Z) "a/b" 0%Z 0%Z]
               (Some 1%Z) = None).
  { induction depth as [|depth IH]; [reflexivity |].
    cbn [buildFolderTree subfolders filter sameParent Folder.parentId Folder.id
         Z.eqb Pos.eqb map]. rewrite IH. reflexivity. }
  intros [|depth]; [reflexivity |].
  cbn [buildFolderTree subfolders filter sameParent Folder.parentId Folder.id
       Z.eqb Pos.eqb map]. rewrite H. reflexivity.
Qed.

(** X20.  In a tree [buildFolderTree] returns, the nodes listed for a parent
    are the rows whose [parentId] is that parent, in the order of the rows
    and with their fields; this holds under every node, at every depth, and
    [hasChildren] is [true] exactly on the nodes whose [children] is not
    empty. *)
Theorem buildFolderTree_lists_subfolders (folders : list Folder.t) (depth : nat)
  (parentId : option Z) (tree : list FolderTreeNode) :
  buildFolderTree depth folders parentId = Some tree ->
  Forall2 describes (subfolders folders parentId) tree
  /\ Forall (NodeOfRows folders) tree.
Proof. apply TreeShape.buildFolderTree_shape. Qed.

Lemma buildFolderTree_lists_subfolders_witness :
  exists tree,
    buildFolderTree 4 Fixtures.mockFolders None = Some tree
    /\ Forall2 describes (subfolders Fixtures.mockFolders None) tree
    /\ Forall (NodeOfRows Fixtures.mockFolders) tree.
Proof.
  eexists. split; [reflexivity |].
  apply (@buildFolderTree_lists_subfolders Fixtures.mockFolders 4 None).
  reflexivity.
Defined.

(** X21.  With unique ids, the tree built from the root holds exactly the
    rows below the root: the rows without parent, their sub-folders, and so
    on.  A row whose chain of parents ends at an id that no row has, or
    loops, is in no node of the tree. *)
Theorem buildFolderTree_holds_rows_below_root (folders : list Folder.t) (depth : nat)
  (tree : list FolderTreeNode) (f : Folder.t) :
  NoDup (map Folder.id folders) ->
  buildFolderTree depth folders None = Some tree ->
  In f folders ->
  (In (Folder.id f) (tree_ids tree) <-> Below folders None f).
Proof.
  intros ND H Hf. split.
  - intros Hi.
    destruct (@TreeShape.tree_ids_below folders depth None tree H _ Hi)
      as [g [Hg Hbelow]].
    assert (Hin : In g folders) by (destruct Hbelow; assumption).
    now rewrite <- (@TreeFacts.unique_row folders g f ND Hin Hf Hg).
  - exact (@TreeShape.below_in_tree folders depth None tree f H).
Qed.

Lemma buildFolderTree_holds_rows_below_root_witness :
  let orphan := Folder.mk 7 "lost" (Some 9%Z) "/lost" 0%Z 0%Z in
  let rows := orphan :: Fixtures.mockFolders in
  exists tree,
    buildFolderTree 5 rows None = Some tree
    /\ ~ In 7%Z (tree_ids tree)
    /\ ~ Below rows None orphan.
Proof.
  intros orphan rows. eexists. split; [reflexivity |].
  assert (Hn : ~ In 7%Z [1%Z; 2%Z; 3%Z]) by (simpl; intuition discriminate).
  split; [exact Hn |].
  intros Hb. apply Hn.
  apply (proj2 (@buildFolderTree_holds_rows_below_root rows 5 _ orphan
                  ltac:(repeat constructor; simpl; intuition discriminate)
                  eq_refl (or_introl eq_refl))).
  exact Hb.
Defined.

(* ------------------------------------------------------------------ *)
(** ** Creating a folder *)

(** X22.  [createFolder] stores the bare name as path whenever it has no
    parent row in hand: when [parentId] is null or left out, when it is 0
    (the repository is then not even asked), and when the repository finds
    no row for it.  The [parentId] is handed to the repository as it was
    given, so a folder can be stored with a parent that does not exist. *)
Theorem createFolder_without_parent (repository : IFolderRepository)
  (folder : NewFolder) :
  newParentId folder = None
  \/ newParentId folder = Some 0%Z
  \/ (exists p, newParentId folder = Some p
                /\ outcome (findById repository p) = Ok None) ->
  let createInput :=
    CreateFolderInput.mk (newName folder) (newParentId folder) (newName folder) in
  createFolder repository folder
  = (match newParentId folder with
     | Some p => if Z.eqb p 0 then [] else [FindById p]
     | None => []
     end ++ [Create createInput],
     outcome (create repository createInput)).
Proof.
  intros H createInput. subst createInput. unfold createFolder.
  destruct H as [-> | [-> | [p [-> Hp]]]].
  - reflexivity.
  - reflexivity.
  - destruct (Z.eqb p 0); [reflexivity |]. now rewrite Hp.
Qed.

Lemma createFolder_without_parent_witness :
  let row := Folder.mk 4 "Music" (Some 0%Z) "Music" 0%Z 0%Z in
  let repository :=
    {| findById := fun _ => Promise_resolve (Some row);
       create := fun _ => Promise_resolve row |} in
  fst (createFolder repository {| newName := "Music"; newParentId := Some 0%Z |})
  = [Create (CreateFolderInput.mk "Music" (Some 0%Z) "Music")].
Proof.
  intros row repository.
  rewrite (@createFolder_without_parent repository
             {| newName := "Music"; newParentId := Some 0%Z |});
    [reflexivity | right; left; reflexivity].
Defined.

(** X23.  When the repository finds the parent, [createFolder] stores the
    path of the parent, a slash and the name; a row stored with that path is
    then matched by a path criterion on the path of the parent, so a search
    for the parent's path finds its new sub-folder. *)
Theorem createFolder_under_parent (repository : IFolderRepository)
  (folder : NewFolder) (p : Z) (parent : Folder.t) :
  newParentId folder = Some p ->
  p <> 0%Z ->
  outcome (findById repository p) = Ok (Some parent) ->
  let path := (Folder.path parent ++ "/" ++ newName folder)%string in
  let createInput := CreateFolderInput.mk (newName folder) (Some p) path in
  createFolder repository folder
  = ([FindById p; Create createInput], outcome (create repository createInput))
  /\ (forall row,
        Folder.path row = path ->
        execute (PathSearchCriteria (Str (Folder.path parent))) (SearchableFolder row)
        = Ok true).
Proof.
  intros Hp Hnz Hfound path createInput. split.
  - unfold createFolder. rewrite Hp.
    apply Z.eqb_neq in Hnz. rewrite Hnz, Hfound. reflexivity.
  - intros row Hrow. simpl. f_equal.
    apply JsStringFacts.includes_spec.
    exists EmptyString, (JsString.toLowerCase ("/" ++ newName folder)).
    rewrite Hrow. unfold path. now rewrite JsStringFacts.toLowerCase_app.
Qed.

Lemma createFolder_under_parent_witness :
  let parent := Folder.mk 1 "Documents" None "/Documents" 0%Z 0%Z in
  let row := Folder.mk 4 "Music" (Some 1%Z) "/Documents/Music" 0%Z 0%Z in
  let repository :=
    {| findById := fun _ => Promise_resolve (Some parent);
       create := fun _ => Promise_resolve row |} in
  createFolder repository {| newName := "Music"; newParentId := Some 1%Z |}
  = ([FindById 1; Create (CreateFolderInput.mk "Music" (Some 1%Z) "/Documents/Music")],
     Ok row)
  /\ execute (PathSearchCriteria (Str "/Documents")) (SearchableFolder row) = Ok true.
Proof.
  intros parent row repository.
  destruct (@createFolder_under_parent repository
              {| newName := "Music"; newParentId := Some 1%Z |} 1%Z parent
              eq_refl ltac:(discriminate) eq_refl) as [H1 H2].
  split; [exact H1 | apply (H2 row); reflexivity].
Defined.

(* ------------------------------------------------------------------ *)
(** ** Other engines *)

Module OtherEngines.

Lemma forallb_app_item {A} (cs1 cs2 : list (A -> bool)) (item : A) :
  forallb (fun c => c item) (cs1 ++ cs2)
  = forallb (fun c => c item) cs1 && forallb (fun c => c item) cs2.
Proof. apply forallb_app. Qed.

Lemma documented_search_filter {A} (items : list A) (cs : list (A -> bool)) :
  Documented.SearchEngine_search items cs
  = filter (fun item => forallb (fun c => c item) cs) items.
Proof.
  unfold Documented.SearchEngine_search. destruct cs as [|c cs]; simpl.
  - symmetry. now apply ServiceEdges.filter_true.
  - reflexivity.
Qed.

Lemma firstn_resultItems (keep : ISearchable -> bool)
  (fs : list Folder.t) (gs : list File.t) :
  ResultMonad.mapM toSearchResult
    (firstn 1 (filter keep (map SearchableFolder fs ++ map SearchableFile gs)))
  = Ok (firstn 1 (resultItems keep fs gs)).
Proof.
  pose proof (ServiceFacts.mapM_toSearchResult keep fs gs) as H.
  destruct (filter keep (map SearchableFolder fs ++ map SearchableFile gs))
    as [|x l]; simpl in *.
  - injection H as <-. reflexivity.
  - destruct (toSearchResult x) as [y|e]; simpl in *; [| discriminate].
    destruct (ResultMonad.mapM toSearchResult l) as [ys|e]; simpl in *;
      [| discriminate].
    injection H as <-. reflexivity.
Qed.

End OtherEngines.

(** X24.  The engine of the search documentation, which takes a list of
    criteria, keeps the items that every criterion matches, in order; for
    the empty list that is every item; and searching with two lists put
    together is searching with the second in the result of the first. *)
Theorem documented_search_concat (SearchableItem : Type)
  (items : list SearchableItem)
  (cs1 cs2 : list (Documented.ISearchCriteria SearchableItem)) :
  Documented.SearchEngine_search items cs1
  = filter (fun item => forallb (fun c => c item) cs1) items
  /\ Documented.SearchEngine_search items [] = items
  /\ Documented.SearchEngine_search items (cs1 ++ cs2)
     = Documented.SearchEngine_search (Documented.SearchEngine_search items cs1) cs2.
Proof.
  split; [apply OtherEngines.documented_search_filter |]. split; [reflexivity |].
  rewrite !OtherEngines.documented_search_filter, EngineFacts.filter_filter.
  apply filter_ext. intros item. apply OtherEngines.forallb_app_item.
Qed.

(** X25.  The service works with the engine it is given: with the
    [LimitedSearchEngine] of the test suite the advanced search returns at
    most one record, the first of those it returns with the default engine
    (folders before files), and [totalCount] counts it. *)
Theorem advancedSearch_limited_engine (dp : ISearchDataProvider)
  (criteria : ISearchCriteria) (fs : list Folder.t) (gs : list File.t) :
  outcome (getFolders dp) = Ok fs ->
  outcome (getFiles dp) = Ok gs ->
  WellTyped criteria ->
  let found := firstn 1 (resultItems (matches criteria) fs gs) in
  SearchService_advancedSearch dp LimitedSearchEngine_search criteria
  = ([GetFolders; GetFiles],
     Ok (mkSearchResult found (List.length found) "Advanced Search"))
  /\ List.length found <= 1.
Proof.
  intros HF HG W found. split; [| apply firstn_le_length].
  unfold SearchService_advancedSearch, Promise_all, LimitedSearchEngine_search.
  subst found.
  cbn [Eff.bind Eff.call Eff.ret Eff.lift outcome app].
  rewrite HF, HG.
  cbn [Eff.bind Eff.call Eff.ret Eff.lift outcome app].
  rewrite ServiceFacts.SearchEngine_search_returns by assumption.
  cbn [Eff.bind Eff.call Eff.ret Eff.lift app ResultMonad.bind].
  rewrite OtherEngines.firstn_resultItems.
  reflexivity.
Qed.

Lemma advancedSearch_limited_engine_witness :
  option_map (fun r => (map SearchResultItem.name (items r), totalCount r))
    (match Eff.result (SearchService_advancedSearch Fixtures.mockDataProvider
                         LimitedSearchEngine_search
                         (NameSearchCriteria (Str "document"))) with
     | Ok r => Some r
     | Throw _ => None
     end)
  = Some (["Documents"], 1).
Proof.
  rewrite (proj1 (@advancedSearch_limited_engine Fixtures.mockDataProvider
                    (NameSearchCriteria (Str "document"))
                    Fixtures.mockFolders Fixtures.mockFiles eq_refl eq_refl
                    ltac:(now exists "document"))).
  reflexivity.
Defined.
